(** * The inventory ledger of [inventory_system_fixed.py]

    A shallow embedding of the module's functions ([add_item],
    [remove_item], [get_qty], [load_data], [save_data],
    [check_low_items]) and the properties of the ledger they implement.

    The module keeps one global, [stock_data], and talks to two
    collaborators: the [logging] channel and the file system (through
    [open] and the [json] library).  All three are fields of [state]; a
    Python call is a function from the state before the call to an
    [outcome]: the call returned, or an exception left it, each with the
    state it left behind. *)

From Stdlib Require Import ZArith String Ascii List Bool Lia.
From stdpp Require Import base option list strings pretty gmap.

Set Warnings "-register-all".
Local Open Scope string_scope.
Local Open Scope list_scope.
Local Open Scope stdpp_scope.
Local Open Scope Z_scope.

(** ** Python values

    The values that can reach [stock_data]: what [add_item] lets
    through and what [json.load] builds.  A dict is an association list in
    insertion order (Python dicts iterate in that order); its keys are
    strings, as both [add_item] and JSON guarantee.  A str is a string
    of characters with code points below 256.  Numbers with a fraction or
    an exponent (Python floats) are left out of the model. *)

Inductive pyval : Type :=
| PyNone
| PyBool (b : bool)
| PyInt (n : Z)
| PyStr (s : string)
| PyList (l : list pyval)
| PyDict (d : list (string * pyval)).

Inductive pytype : Type :=
| NoneType | bool_t | int_t | str_t | list_t | dict_t.

(** [type(v)] *)
Definition type_of (v : pyval) : pytype :=
  match v with
  | PyNone => NoneType
  | PyBool _ => bool_t
  | PyInt _ => int_t
  | PyStr _ => str_t
  | PyList _ => list_t
  | PyDict _ => dict_t
  end.

(** [bool(v)], the test behind [if not item] *)
Definition truthy (v : pyval) : bool :=
  match v with
  | PyNone => false
  | PyBool b => b
  | PyInt n => negb (n =? 0)
  | PyStr s => negb (String.eqb s EmptyString)
  | PyList l => match l with [] => false | _ => true end
  | PyDict d => match d with [] => false | _ => true end
  end.

(** [isinstance(v, str)] *)
Definition isinstance_str (v : pyval) : bool :=
  match v with PyStr _ => true | _ => false end.

(** [isinstance(v, int)]: [bool] is a subclass of [int] *)
Definition isinstance_int (v : pyval) : bool :=
  match v with PyInt _ | PyBool _ => true | _ => false end.

(** The integer a number stands for in arithmetic ([True] is 1). *)
Definition as_int (v : pyval) : option Z :=
  match v with
  | PyInt n => Some n
  | PyBool b => Some (if b then 1 else 0)
  | _ => None
  end.

(** ** Dict operations on the association list *)

Module Dict.

Definition t : Type := list (string * pyval).

(** [d.get(k)] / the lookup behind [d[k]] *)
Fixpoint get (d : t) (k : string) : option pyval :=
  match d with
  | [] => None
  | (k', v) :: r => if String.eqb k' k then Some v else get r k
  end.

(** [k in d] *)
Definition mem (d : t) (k : string) : bool :=
  match get d k with Some _ => true | None => false end.

(** [d[k] = v]: a key already there keeps its place, a new one goes
    last *)
Fixpoint set (d : t) (k : string) (v : pyval) : t :=
  match d with
  | [] => [(k, v)]
  | (k', v') :: r =>
      if String.eqb k' k then (k, v) :: r else (k', v') :: set r k v
  end.

(** [del d[k]] *)
Fixpoint del (d : t) (k : string) : t :=
  match d with
  | [] => []
  | (k', v') :: r =>
      if String.eqb k' k then del r k else (k', v') :: del r k
  end.

(** [d.keys()] in iteration order *)
Definition keys (d : t) : list string := map fst d.

(** A Python dict holds a key once. *)
Definition wf (d : t) : Prop := NoDup (keys d).

End Dict.

(** Every value of the dict is an integer. *)
Definition integral (d : Dict.t) : Prop :=
  Forall (fun p => exists q, snd p = PyInt q) d.

(** Every value of the dict is an integer above 0. *)
Definition positive (d : Dict.t) : Prop :=
  Forall (fun p => exists q, snd p = PyInt q /\ 0 < q) d.

(** ** Diagnostics, exceptions, files *)

Inductive level : Type := INFO | WARNING | ERROR.

Definition ENOENT : Z := 2.
Definition EACCES : Z := 13.
Definition EISDIR : Z := 21.
Definition ENOSPC : Z := 28.

(** The argument of a [KeyError]: the text [remove_item] builds, or
    the key a failed dict lookup reports. *)
Inductive key_error_arg : Type :=
| Item_not_found (item : string)
    (* f"Item '{item}' not found in inventory" *)
| Key (k : string)
    (* k, from d[k] or del d[k] on a dict d without k *).

(** The exceptions the modelled operations raise.  [OSError] carries
    its [errno]; Python picks the subclass from it
    ([FileNotFoundError], [PermissionError], [IsADirectoryError]). *)
Inductive exn : Type :=
| KeyError (arg : key_error_arg)
| TypeError
| AttributeError
| ValueError
| UnicodeDecodeError
| JSONDecodeError (detail : string)
| OSError (errno : Z).

(** [isinstance(e, KeyError)] *)
Definition is_KeyError (e : exn) : bool :=
  match e with KeyError _ => true | _ => false end.

(** [isinstance(e, json.JSONDecodeError)] *)
Definition is_JSONDecodeError (e : exn) : bool :=
  match e with JSONDecodeError _ => true | _ => false end.

(** [isinstance(e, FileNotFoundError)] *)
Definition is_FileNotFoundError (e : exn) : bool :=
  match e with OSError n => n =? ENOENT | _ => false end.

(** [isinstance(e, IOError)]; [IOError] is [OSError] in Python 3 *)
Definition is_IOError (e : exn) : bool :=
  match e with OSError _ => true | _ => false end.

(** The text of each message the module builds, by the place that
    builds it; the fields are the values its f-string interpolates. *)
Inductive message : Type :=
| Invalid_item_type (ty : pytype)
    (* f"Invalid item type: {type(item)}. Expected string." *)
| Invalid_quantity_type (ty : pytype)
    (* f"Invalid quantity type: {type(qty)}. Expected integer." *)
| Added (now : string) (qty : pyval) (item : string)
    (* f"{datetime.now()}: Added {qty} of {item}" *)
| Removed_all (item : string)
    (* f"Removed all '{item}' from inventory" *)
| Str (e : exn)
    (* str(e) *)
| Loaded_from (file : string)
    (* f"Successfully loaded data from {file}" *)
| File_not_found (file : string)
    (* f"File {file} not found. Starting with empty inventory." *)
| Invalid_JSON (file : string) (e : exn)
    (* f"Invalid JSON in {file}: {e}" *)
| Saved_to (file : string)
    (* f"Successfully saved data to {file}" *)
| Error_saving (file : string) (e : exn)
    (* f"Error saving to {file}: {e}" *).

(** What a path names.  A path the map does not hold names nothing,
    in a directory that exists. *)
Inductive node : Type :=
| File (content : string)  (* a regular file, readable and writable *)
| Directory                (* open: IsADirectoryError *)
| Forbidden                (* open: PermissionError *)
| NoDirectory              (* a directory on the path is missing *).

Record state : Type := mkState {
  stock_data : pyval;                 (* the module's global *)
  log : list (level * message);       (* what [logging] has emitted *)
  files : gmap string node;           (* the file system *)
  disk_full : bool                    (* no byte can be written *)
}.

Definition set_stock (v : pyval) (s : state) : state :=
  mkState v (log s) (files s) (disk_full s).

Definition add_log (l : level) (m : message) (s : state) : state :=
  mkState (stock_data s) (log s ++ [(l, m)]) (files s) (disk_full s).

Definition set_file (path : string) (n : node) (s : state) : state :=
  mkState (stock_data s) (log s) (<[path := n]> (files s)) (disk_full s).

(** ** Calls: state and exceptions *)

Inductive outcome (A : Type) : Type :=
| Returned (a : A) (s : state)
| Raised (e : exn) (s : state).
Arguments Returned {A} a s.
Arguments Raised {A} e s.

Definition final {A} (o : outcome A) : state :=
  match o with Returned _ s | Raised _ s => s end.

Definition py (A : Type) : Type := state -> outcome A.

#[global] Instance py_ret : MRet py := fun A a s => Returned a s.

#[global] Instance py_bind : MBind py := fun A B f m s =>
  match m s with
  | Returned a s' => f a s'
  | Raised e s' => Raised e s'
  end.

Definition raise {A} (e : exn) : py A := fun s => Raised e s.

(** [try: body  except C1: h1  except C2: h2 ...]: the first clause
    whose class test accepts the exception runs, from the state the
    body left; with no such clause the exception goes on to the caller.
    What a handler raises is not offered to the other clauses. *)
Definition clause (A : Type) : Type := (exn -> bool) * (exn -> py A).

Fixpoint select {A} (cs : list (clause A)) (e : exn) : py A :=
  match cs with
  | [] => raise e
  | (handles, handler) :: cs' =>
      if handles e then handler e else select cs' e
  end.

Definition except {A} (handles : exn -> bool) (handler : exn -> py A)
  : clause A := (handles, handler).

Definition try_except {A} (body : py A) (cs : list (clause A)) : py A :=
  fun s =>
    match body s with
    | Returned a s' => Returned a s'
    | Raised e s' => select cs e s'
    end.

Definition read_stock : py pyval := fun s => Returned (stock_data s) s.
Definition write_stock (v : pyval) : py unit :=
  fun s => Returned tt (set_stock v s).

(** [logging.info], [logging.warning], [logging.error] *)
Definition logging (l : level) (m : message) : py unit :=
  fun s => Returned tt (add_log l m s).

(** A step that reads no state: a value or an exception. *)
Definition lift {A} (r : exn + A) : py A :=
  match r with inl e => raise e | inr a => mret a end.

(** Unfolds the plumbing of a call, leaving the operations on values. *)
Ltac run :=
  cbv [try_except mbind py_bind mret py_ret lift raise read_stock
       write_stock logging except select];
  simpl.

(** ** The operators and methods the module applies to [stock_data]

    [stock_data] starts as a dict, but [load_data] binds it to whatever
    the file holds, so each operation says what Python does on every
    value.  Parameters the functions do not validate are given the type
    their docstring declares ([item : str], [qty : int],
    [threshold : int], [file : str]): with a string [item] and an integer
    right operand these are all the cases. *)

(** [a + b] *)
Definition py_add (a b : pyval) : exn + pyval :=
  match as_int a, as_int b with
  | Some x, Some y => inr (PyInt (x + y))
  | _, _ =>
      match a, b with
      | PyStr s, PyStr t => inr (PyStr (String.append s t))
      | PyList l, PyList m => inr (PyList (l ++ m))
      | _, _ => inl TypeError
      end
  end.

(** [a - n] for an integer [n] *)
Definition py_sub (a : pyval) (n : Z) : exn + pyval :=
  match as_int a with
  | Some x => inr (PyInt (x - n))
  | None => inl TypeError
  end.

(** [a < n] for an integer [n] *)
Definition py_lt (a : pyval) (n : Z) : exn + bool :=
  match as_int a with
  | Some x => inr (x <? n)
  | None => inl TypeError
  end.

(** [a <= n] for an integer [n] *)
Definition py_le (a : pyval) (n : Z) : exn + bool :=
  match as_int a with
  | Some x => inr (x <=? n)
  | None => inl TypeError
  end.

(** [s in t] on strings: [s] occurs in [t] *)
Definition occurs_in (s t : string) : bool :=
  match String.index 0 s t with Some _ => true | None => false end.

(** [item in c] for a string [item] *)
Definition py_contains (c : pyval) (item : string) : exn + bool :=
  match c with
  | PyDict d => inr (Dict.mem d item)
  | PyList l =>
      inr (existsb (fun v => match v with
                             | PyStr s => String.eqb s item
                             | _ => false
                             end) l)
  | PyStr t => inr (occurs_in item t)
  | PyNone | PyBool _ | PyInt _ => inl TypeError
  end.

(** [c.get(item, default)] *)
Definition py_get (c : pyval) (item : string) (default : pyval)
  : exn + pyval :=
  match c with
  | PyDict d => inr (match Dict.get d item with
                     | Some v => v
                     | None => default
                     end)
  | _ => inl AttributeError
  end.

(** [c[item]] for a string [item] *)
Definition py_getitem (c : pyval) (item : string) : exn + pyval :=
  match c with
  | PyDict d => match Dict.get d item with
                | Some v => inr v
                | None => inl (KeyError (Key item))
                end
  | _ => inl TypeError
  end.

(** [c[item] = v] for a string [item]: the container afterwards *)
Definition py_setitem (c : pyval) (item : string) (v : pyval)
  : exn + pyval :=
  match c with
  | PyDict d => inr (PyDict (Dict.set d item v))
  | _ => inl TypeError
  end.

(** [del c[item]] for a string [item]: the container afterwards *)
Definition py_delitem (c : pyval) (item : string) : exn + pyval :=
  match c with
  | PyDict d => if Dict.mem d item
                then inr (PyDict (Dict.del d item))
                else inl (KeyError (Key item))
  | _ => inl TypeError
  end.

(** [c.items()] *)
Definition py_items (c : pyval) : exn + list (string * pyval) :=
  match c with
  | PyDict d => inr d
  | _ => inl AttributeError
  end.

(** ** The ledger functions *)

(** [add_item(item, qty, logs)].  [now] is what [datetime.now()]
    answers during the call.  The function returns [None]; the result
    here is the content of the list [logs] names when it returns, which
    is how the caller's list is seen to change. *)
Definition add_item (item qty : pyval) (logs : option (list message))
    (now : string) : py (list message) :=
  let logs := match logs with None => [] | Some l => l end in
  if negb (truthy item) then mret logs
  else match item with
  | PyStr name =>
      if negb (isinstance_int qty) then
        logging ERROR (Invalid_quantity_type (type_of qty));;
        mret logs
      else
        sd ← read_stock;
        current ← lift (py_get sd name (PyInt 0));
        total ← lift (py_add current qty);
        sd ← read_stock;
        sd' ← lift (py_setitem sd name total);
        write_stock sd';;
        let log_entry := Added now qty name in
        logging INFO log_entry;;
        mret (logs ++ [log_entry])
  | _ =>
      logging ERROR (Invalid_item_type (type_of item));;
      mret logs
  end.

(** The defaults of its parameters: [item="default", qty=0]. *)
Definition default_item : pyval := PyStr "default".
Definition default_qty : pyval := PyInt 0.

(** [remove_item(item, qty)] *)
Definition remove_item (item : string) (qty : Z) : py unit :=
  try_except
    (sd ← read_stock;
     present ← lift (py_contains sd item);
     if negb present then raise (KeyError (Item_not_found item))
     else
       (* stock_data[item] -= qty *)
       sd ← read_stock;
       old ← lift (py_getitem sd item);
       new ← lift (py_sub old qty);
       sd' ← lift (py_setitem sd item new);
       write_stock sd';;
       (* if stock_data[item] <= 0 *)
       sd ← read_stock;
       left ← lift (py_getitem sd item);
       gone ← lift (py_le left 0);
       if (gone : bool) then
         sd ← read_stock;
         sd' ← lift (py_delitem sd item);
         write_stock sd';;
         logging INFO (Removed_all item)
       else (mret tt : py unit))
    [ except is_KeyError (fun e => logging ERROR (Str e)) ].

(** [get_qty(item)] *)
Definition get_qty (item : string) : py pyval :=
  sd ← read_stock;
  lift (py_get sd item (PyInt 0)).

(** The loop of [check_low_items] over [stock_data.items()], with
    [result] as it stands on entry. *)
Fixpoint low_loop (threshold : Z) (items : list (string * pyval))
    (result : list string) : py (list string) :=
  match items with
  | [] => mret result
  | (item, quantity) :: rest =>
      low ← lift (py_lt quantity threshold);
      low_loop threshold rest
        (if (low : bool) then result ++ [item] else result)
  end.

(** [check_low_items(threshold)] *)
Definition check_low_items (threshold : Z) : py (list string) :=
  sd ← read_stock;
  items ← lift (py_items sd);
  low_loop threshold items [].

(** The default of its parameter: [threshold=5]. *)
Definition default_threshold : Z := 5.

(** ** The report of [print_data]

    [print] writes to the standard output, which is no part of [state]:
    [print_data] answers the strings it has passed to [print], one per
    call and in order, beside the outcome of the call, so that what was
    printed before an exception is kept. *)

(** [c * n] for a string [c] of one character *)
Fixpoint repeated (n : nat) (c : ascii) : string :=
  match n with
  | O => EmptyString
  | S n' => String c (repeated n' c)
  end.

(** A text filled with spaces on its right, or on its left, up to
    [width]; a text that is longer is left as it is. *)
Definition ljust (width : nat) (text : string) : string :=
  String.append text (repeated (width - String.length text) " "%char).

Definition rjust (width : nat) (text : string) : string :=
  String.append (repeated (width - String.length text) " "%char) text.

(** [format(v, str(width))], what [f"{v:width}"] interpolates: a number
    goes to the right of the field ([True] as [1]), a str to its left;
    [None], a list or a dict refuse a format specification. *)
Definition py_format (v : pyval) (width : nat) : exn + string :=
  match v with
  | PyInt n => inr (rjust width (pretty n))
  | PyBool b => inr (rjust width (if b then "1" else "0"))
  | PyStr s => inr (ljust width s)
  | PyNone | PyList _ | PyDict _ => inl TypeError
  end.

(** f"{item:20} -> {quantity:5}" *)
Definition report_row (item : string) (quantity : pyval) : exn + string :=
  match py_format quantity 5 with
  | inl e => inl e
  | inr q => inr (String.append (ljust 20 item) (String.append " -> " q))
  end.

(** The loop of [print_data]: the rows printed, and the exception that
    ended the loop if one did. *)
Fixpoint print_rows (items : list (string * pyval))
  : list string * option exn :=
  match items with
  | [] => ([], None)
  | (item, quantity) :: rest =>
      match report_row item quantity with
      | inl e => ([], Some e)
      | inr row =>
          let '(rows, raised) := print_rows rest in (row :: rows, raised)
      end
  end.

(** ["=" * 50] *)
Definition rule : string := repeated 50 "="%char.

(** What [print_data] prints before it looks at [stock_data], and after
    the rows. *)
Definition report_head : list string :=
  [String (ascii_of_N 10) rule; "INVENTORY REPORT"; rule].

Definition report_foot : string :=
  String.append rule (String (ascii_of_N 10) EmptyString).

(** [print_data()] *)
Definition print_data (s : state) : list string * outcome unit :=
  if negb (truthy (stock_data s)) then
    (report_head ++ ["No items in inventory"; report_foot], Returned tt s)
  else
    match py_items (stock_data s) with
    | inl e => (report_head, Raised e s)
    | inr items =>
        match print_rows items with
        | (rows, Some e) => (report_head ++ rows, Raised e s)
        | (rows, None) => (report_head ++ rows ++ [report_foot], Returned tt s)
        end
    end.

(** ** Files and JSON *)

(** A path with a NUL character is refused by [open] with a
    [ValueError] before the file system is asked. *)
Fixpoint has_nul (path : string) : bool :=
  match path with
  | EmptyString => false
  | String c rest => Ascii.eqb c zero || has_nul rest
  end.

(** What [open(path, ...)] raises, if it does, in either mode. *)
Definition open_error (path : string) (s : state) : option exn :=
  if has_nul path then Some ValueError
  else if String.eqb path EmptyString then Some (OSError ENOENT)
  else match files s !! path with
       | Some Directory => Some (OSError EISDIR)
       | Some Forbidden => Some (OSError EACCES)
       | Some NoDirectory => Some (OSError ENOENT)
       | Some (File _) | None => None
       end.

(** [open(path, "r", encoding="utf-8")] and reading the file to its
    end: the bytes of the file *)
Definition open_read (path : string) : py string := fun s =>
  match open_error path s with
  | Some e => Raised e s
  | None =>
      match files s !! path with
      | Some (File content) => Returned content s
      | _ => Raised (OSError ENOENT) s
      end
  end.

(** [open(path, "w", encoding="utf-8")]: the file is created or cut to
    nothing *)
Definition open_write (path : string) : py unit := fun s =>
  match open_error path s with
  | Some e => Raised e s
  | None => Returned tt (set_file path (File EmptyString) s)
  end.

(** Writing [text] to the file opened on [path] and closing it; on a
    full disk no byte gets there. *)
Definition write_close (path text : string) : py unit := fun s =>
  if disk_full s && negb (String.eqb text EmptyString)
  then Raised (OSError ENOSPC) s
  else Returned tt (set_file path (File text) s).

(** What [json.load] makes of the bytes of a file. *)
Inductive parse : Type :=
| Parsed (v : pyval)
| Malformed (detail : string)   (* json.JSONDecodeError *)
| Undecodable                   (* not UTF-8: UnicodeDecodeError *).

(** The [json] library, as far as the module uses it:
    [json.dump(v, f, indent=2)] writes [json_dump v] to [f], and
    [json.load(f)] answers [json_load] of the bytes of [f]. *)
Class Json : Type := {
  json_dump : pyval -> string;
  json_load : string -> parse
}.

Section Persistence.

Context `{Json}.

(** [load_data(file)] *)
Definition load_data (file : string) : py unit :=
  try_except
    (text ← open_read file;
     v ← lift (match json_load text with
               | Parsed v => inr v
               | Malformed detail => inl (JSONDecodeError detail)
               | Undecodable => inl UnicodeDecodeError
               end);
     write_stock v;;
     logging INFO (Loaded_from file))
    [ except is_FileNotFoundError
        (fun _ => logging WARNING (File_not_found file);;
                  write_stock (PyDict []));
      except is_JSONDecodeError
        (fun e => logging ERROR (Invalid_JSON file e)) ].

(** [save_data(file)] *)
Definition save_data (file : string) : py unit :=
  try_except
    (open_write file;;
     sd ← read_stock;
     write_close file (json_dump sd);;
     logging INFO (Saved_to file))
    [ except is_IOError
        (fun e => logging ERROR (Error_saving file e)) ].

(** The default of their parameter: [file="inventory.json"]. *)
Definition default_file : string := "inventory.json".

(** *** Sequences of calls *)

Inductive call : Type :=
| Add_item (item qty : pyval) (logs : option (list message))
    (now : string)
| Remove_item (item : string) (qty : Z)
| Get_qty (item : string)
| Check_low_items (threshold : Z)
| Load_data (file : string)
| Save_data (file : string).

(** The state a call leaves, whether it returned or raised. *)
Definition after (c : call) (s : state) : state :=
  match c with
  | Add_item item qty logs now => final (add_item item qty logs now s)
  | Remove_item item qty => final (remove_item item qty s)
  | Get_qty item => final (get_qty item s)
  | Check_low_items threshold => final (check_low_items threshold s)
  | Load_data file => final (load_data file s)
  | Save_data file => final (save_data file s)
  end.

(** The module as imported: [stock_data = {}], nothing logged. *)
Definition fresh (fs : gmap string node) (full : bool) : state :=
  mkState (PyDict []) [] fs full.

(** The states a program reaches from the import by calls that
    [allowed] lets through in the state they are made in. *)
Inductive reachable (allowed : state -> call -> Prop) : state -> Prop :=
| reach_fresh fs full : reachable allowed (fresh fs full)
| reach_call c s :
    reachable allowed s -> allowed s c -> reachable allowed (after c s).

Definition any_call : state -> call -> Prop := fun _ _ => True.

(** The calls that bring no quantity of 0 or less into the mapping: an
    addition whose quantity, if a number, is above 0, and a load of a
    file which, if it parses, holds integers above 0; every other call. *)
Definition positive_call (s : state) (c : call) : Prop :=
  match c with
  | Add_item item qty logs now => forall n, as_int qty = Some n -> 0 < n
  | Load_data file =>
      forall text v,
        open_read file s = Returned text s ->
        json_load text = Parsed v ->
        exists d, v = PyDict d /\ positive d
  | _ => True
  end.

End Persistence.

(** ** A JSON reader and writer to run the model on concrete files

    An instance of [Json] for ASCII files and the values of [pyval]: the
    writer lays a value out as [json.dump(..., indent=2)] does; the reader
    accepts objects, arrays, strings, integers, [true], [false] and
    [null].  A document with a number that is not an integer or with an
    escape above [\u00ff] is beyond [pyval] and this reader reports it as
    malformed; a file with a byte above 127 it reports as undecodable.
    The properties below hold for every instance of [Json]; this one
    serves to run them. *)

Module Ascii_json.

Local Open Scope char_scope.

Definition dquote : ascii := ascii_of_N 34.
Definition backslash : ascii := ascii_of_N 92.

Definition hex_digit (n : N) : ascii :=
  match n with
  | 0%N => "0" | 1%N => "1" | 2%N => "2" | 3%N => "3" | 4%N => "4"
  | 5%N => "5" | 6%N => "6" | 7%N => "7" | 8%N => "8" | 9%N => "9"
  | 10%N => "a" | 11%N => "b" | 12%N => "c" | 13%N => "d"
  | 14%N => "e" | _ => "f"
  end.

(** One character of a string, as the writer escapes it. *)
Definition escape (c : ascii) : string :=
  let n := N_of_ascii c in
  let escaped (x : ascii) := String backslash (String x EmptyString) in
  if Ascii.eqb c dquote then escaped dquote
  else if Ascii.eqb c backslash then escaped backslash
  else if (n =? 10)%N then escaped "n"
  else if (n =? 13)%N then escaped "r"
  else if (n =? 9)%N then escaped "t"
  else if (n =? 8)%N then escaped "b"
  else if (n =? 12)%N then escaped "f"
  else if ((n <? 32) || (126 <? n))%N then
    String backslash (String "u" (String "0" (String "0"
      (String (hex_digit (n / 16)) (String (hex_digit (n mod 16))
         EmptyString)))))
  else String c EmptyString.

Fixpoint escape_all (s : string) : string :=
  match s with
  | EmptyString => EmptyString
  | String c r => String.append (escape c) (escape_all r)
  end.

Definition quoted (s : string) : string :=
  String dquote (String.append (escape_all s) (String dquote EmptyString)).

Fixpoint spaces (n : nat) : string :=
  match n with O => EmptyString | S n' => String " " (spaces n') end.

(** The line break and indentation in front of an item at [depth]. *)
Definition newline (depth : nat) : string :=
  String (ascii_of_N 10) (spaces (2 * depth)).

(** The items of a list or dict at [depth], each on a line of its own
    and all but the last followed by a comma. *)
Fixpoint lines (depth : nat) (items : list string) : string :=
  match items with
  | [] => EmptyString
  | [x] => String.append (newline (S depth)) x
  | x :: rest =>
      String.append (newline (S depth))
        (String.append x (String "," (lines depth rest)))
  end.

Fixpoint dump (depth : nat) (v : pyval) : string :=
  match v with
  | PyNone => "null"%string
  | PyBool true => "true"%string
  | PyBool false => "false"%string
  | PyInt n => pretty n
  | PyStr s => quoted s
  | PyList [] => "[]"%string
  | PyList l =>
      String.append "["%string
        (String.append (lines depth (map (dump (S depth)) l))
           (String.append (newline depth) "]"%string))
  | PyDict [] => "{}"%string
  | PyDict d =>
      String.append "{"%string
        (String.append
           (lines depth
              (map (fun p =>
                      String.append (quoted (fst p))
                        (String.append ": "%string (dump (S depth) (snd p))))
                 d))
           (String.append (newline depth) "}"%string))
  end.

Definition is_ws (c : ascii) : bool :=
  let n := N_of_ascii c in
  ((n =? 32) || (n =? 10) || (n =? 13) || (n =? 9))%N.

Fixpoint skip_ws (s : string) : string :=
  match s with
  | String c r => if is_ws c then skip_ws r else s
  | EmptyString => s
  end.

Definition digit_of (c : ascii) : option Z :=
  let n := N_of_ascii c in
  if ((48 <=? n) && (n <=? 57))%N then Some (Z.of_N n - 48) else None.

Definition hex_of (c : ascii) : option N :=
  let n := N_of_ascii c in
  if ((48 <=? n) && (n <=? 57))%N then Some (n - 48)%N
  else if ((97 <=? n) && (n <=? 102))%N then Some (n - 87)%N
  else if ((65 <=? n) && (n <=? 70))%N then Some (n - 55)%N
  else None.

(** The characters of a string up to its closing quote, and what
    follows it. *)
Fixpoint read_string (s : string) : option (string * string) :=
  match s with
  | EmptyString => None
  | String c r =>
      if Ascii.eqb c dquote then Some (EmptyString, r)
      else if Ascii.eqb c backslash then
        match r with
        | String e r' =>
            let plain (x : ascii) :=
              match read_string r' with
              | Some (t, rest) => Some (String x t, rest)
              | None => None
              end in
            if Ascii.eqb e dquote then plain dquote
            else if Ascii.eqb e backslash then plain backslash
            else if Ascii.eqb e "/" then plain "/"
            else if Ascii.eqb e "n" then plain (ascii_of_N 10)
            else if Ascii.eqb e "r" then plain (ascii_of_N 13)
            else if Ascii.eqb e "t" then plain (ascii_of_N 9)
            else if Ascii.eqb e "b" then plain (ascii_of_N 8)
            else if Ascii.eqb e "f" then plain (ascii_of_N 12)
            else if Ascii.eqb e "u" then
              match r' with
              | String a (String b (String c' (String d r''))) =>
                  match hex_of a, hex_of b, hex_of c', hex_of d with
                  | Some 0%N, Some 0%N, Some h, Some l =>
                      match read_string r'' with
                      | Some (t, rest) =>
                          Some (String (ascii_of_N (16 * h + l)) t, rest)
                      | None => None
                      end
                  | _, _, _, _ => None
                  end
              | _ => None
              end
            else None
        | EmptyString => None
        end
      else if (N_of_ascii c <? 32)%N then None
      else match read_string r with
           | Some (t, rest) => Some (String c t, rest)
           | None => None
           end
  end.

(** The digits at the head of [s], read onto [acc]. *)
Fixpoint read_digits (acc : Z) (s : string) : Z * string :=
  match s with
  | String c r =>
      match digit_of c with
      | Some d => read_digits (10 * acc + d) r
      | None => (acc, s)
      end
  | EmptyString => (acc, s)
  end.

(** An integer without sign: [0], or digits that do not start with
    0; a fraction or an exponent after it makes the number a float. *)
Definition read_natural (s : string) : option (Z * string) :=
  match s with
  | String c r =>
      match digit_of c with
      | Some d =>
          let '(n, rest) :=
            if (d =? 0)%Z then (0, r) else read_digits d r in
          match rest with
          | String x _ =>
              if Ascii.eqb x "." || Ascii.eqb x "e" || Ascii.eqb x "E"
              then None else Some (n, rest)
          | EmptyString => Some (n, rest)
          end
      | None => None
      end
  | EmptyString => None
  end.

Definition starts (word s : string) : option string :=
  if String.prefix word s
  then Some (String.substring (String.length word)
               (String.length s - String.length word) s)
  else None.

Fixpoint read_value (fuel : nat) (s : string)
  : option (pyval * string) :=
  match fuel with
  | O => None
  | S fuel' =>
      match skip_ws s with
      | EmptyString => None
      | String c r as s' =>
          if Ascii.eqb c "{" then
            match skip_ws r with
            | String "}" r' => Some (PyDict [], r')
            | r' => read_members fuel' [] r'
            end
          else if Ascii.eqb c "[" then
            match skip_ws r with
            | String "]" r' => Some (PyList [], r')
            | r' => read_items fuel' [] r'
            end
          else if Ascii.eqb c dquote then
            match read_string r with
            | Some (t, rest) => Some (PyStr t, rest)
            | None => None
            end
          else if Ascii.eqb c "-" then
            match read_natural r with
            | Some (n, rest) => Some (PyInt (- n), rest)
            | None => None
            end
          else
            match read_natural s' with
            | Some (n, rest) => Some (PyInt n, rest)
            | None =>
                match starts "null" s', starts "true" s',
                      starts "false" s' with
                | Some rest, _, _ => Some (PyNone, rest)
                | _, Some rest, _ => Some (PyBool true, rest)
                | _, _, Some rest => Some (PyBool false, rest)
                | _, _, _ => None
                end
            end
      end
  end
with read_members (fuel : nat) (acc : Dict.t) (s : string)
  : option (pyval * string) :=
  match fuel with
  | O => None
  | S fuel' =>
      match s with
      | String q r =>
          match (if Ascii.eqb q dquote then read_string r else None) with
          | Some (k, r1) =>
              match skip_ws r1 with
              | String ":" r2 =>
                  match read_value fuel' r2 with
                  | Some (v, r3) =>
                      match skip_ws r3 with
                      | String "," r4 =>
                          read_members fuel' (Dict.set acc k v)
                            (skip_ws r4)
                      | String "}" r4 =>
                          Some (PyDict (Dict.set acc k v), r4)
                      | _ => None
                      end
                  | None => None
                  end
              | _ => None
              end
          | None => None
          end
      | _ => None
      end
  end
with read_items (fuel : nat) (acc : list pyval) (s : string)
  : option (pyval * string) :=
  match fuel with
  | O => None
  | S fuel' =>
      match read_value fuel' s with
      | Some (v, r1) =>
          match skip_ws r1 with
          | String "," r2 => read_items fuel' (acc ++ [v]) r2
          | String "]" r2 => Some (PyList (acc ++ [v]), r2)
          | _ => None
          end
      | None => None
      end
  end.

Fixpoint ascii_only (s : string) : bool :=
  match s with
  | EmptyString => true
  | String c r => (N_of_ascii c <? 128)%N && ascii_only r
  end.

Definition load (text : string) : parse :=
  if negb (ascii_only text) then Undecodable
  else match read_value (S (String.length text)) text with
       | Some (v, rest) =>
           match skip_ws rest with
           | EmptyString => Parsed v
           | _ => Malformed "Extra data"
           end
       | None => Malformed "Expecting value"
       end.

(** What may follow a number: the end of the text, or a character that
    is neither a digit nor the start of a fraction or an exponent. *)
Definition stops (rest : string) : bool :=
  match rest with
  | EmptyString => true
  | String c _ =>
      match digit_of c with
      | Some _ => false
      | None => negb (Ascii.eqb c "." || Ascii.eqb c "e" || Ascii.eqb c "E")
      end
  end.

(** The line the writer makes of an entry with an integer value, and the
    end of a dict at depth 0. *)
Definition item_text (p : string * Z) : string :=
  String.append (quoted (fst p))
    (String.append ": "%string (pretty (snd p))).

Definition closing : string := String.append (newline 0) "}"%string.

#[export] Instance json : Json := {|
  json_dump := dump 0;
  json_load := load
|}.

End Ascii_json.

(** ** Vocabulary of the ledger properties *)

(** [item] is in the mapping with value [v]. *)
Definition present (s : state) (item : string) (v : pyval) : Prop :=
  exists d, stock_data s = PyDict d /\ Dict.get d item = Some v.

(** [item] is not in the mapping. *)
Definition absent (s : state) (item : string) : Prop :=
  exists d, stock_data s = PyDict d /\ Dict.get d item = None.

(** The ledger invariant: whatever is in the mapping has a quantity
    above 0. *)
Definition positive_quantities (s : state) : Prop :=
  forall item v, present s item v -> exists q, v = PyInt q /\ 0 < q.

(** The invariant in the form the calls preserve: [stock_data] is a
    dict of integers above 0. *)
Definition kept (s : state) : Prop :=
  exists d, stock_data s = PyDict d /\ positive d.

(** [add_item(item, qty)] turns the call down with a diagnostic: it
    returns, [stock_data] is as before, and one message at error level
    has been logged. *)
Definition rejected_with_error (item qty : pyval) : Prop :=
  forall s logs now, exists r s' m,
    add_item item qty logs now s = Returned r s' /\
    stock_data s' = stock_data s /\
    log s' = log s ++ [(ERROR, m)].

(** One call [add_item(name, qty, logs)] with a string and an integer,
    made when the clock shows [add_now]. *)
Record addition : Type := mkAddition {
  add_name : string;
  add_qty : Z;
  add_logs : option (list message);
  add_now : string
}.

(** The calls made one after the other. *)
Fixpoint add_all (calls : list addition) : py unit :=
  match calls with
  | [] => mret tt
  | c :: rest =>
      add_item (PyStr (add_name c)) (PyInt (add_qty c)) (add_logs c)
        (add_now c);;
      add_all rest
  end.

(** The sum of the quantities the calls passed for [item]. *)
Fixpoint total_for (item : string) (calls : list addition) : Z :=
  match calls with
  | [] => 0
  | c :: rest =>
      (if String.eqb (add_name c) item then add_qty c else 0)
      + total_for item rest
  end.

(** What [get_qty] answers on a dict: the value, or 0. *)
Definition quantity (d : Dict.t) (item : string) : pyval :=
  match Dict.get d item with Some v => v | None => PyInt 0 end.

(** After the calls, made on a fresh ledger, [get_qty(item)] answers
    the sum of the quantities passed for [item]. *)
Definition sums_up (calls : list addition) (item : string) : Prop :=
  forall fs full, exists s,
    add_all calls (fresh fs full) = Returned tt s /\
    get_qty item s = Returned (PyInt (total_for item calls)) s.

(** The integer in the mapping for [item], 0 without one. *)
Definition held (d : Dict.t) (item : string) : Z :=
  match Dict.get d item with Some (PyInt q) => q | _ => 0 end.

(** The low items as the specification words them: the names, in the
    order of the dict, of the entries whose quantity is below the
    threshold. *)
Definition low_items (threshold : Z) (d : Dict.t) : list string :=
  map fst
    (List.filter
       (fun p => match snd p with PyInt q => q <? threshold | _ => false end)
       d).

(** The dict of a ledger given as names with their integer quantities. *)
Definition to_dict (l : list (string * Z)) : Dict.t :=
  map (fun p => (fst p, PyInt (snd p))) l.



(** The calls on the ledger proper: every call but [load_data] and
    [save_data]. *)
Definition ledger_call (c : call) : Prop :=
  match c with Load_data _ | Save_data _ => False | _ => True end.

(** The state after the calls [cs], made one after the other. *)
Definition after_all `{Json} (cs : list call) (s : state) : state :=
  fold_left (fun s c => after c s) cs s.

(** ** Sample states and files *)

(** The ledger of the demonstration in [main] after its two additions
    and first removal: [{"apple": 7, "banana": 5}], with no file. *)
Definition sample : state :=
  mkState (PyDict [("apple", PyInt 7); ("banana", PyInt 5)]) [] ∅ false.

(** [sample] beside an [inventory.json] that is not JSON. *)
Definition garbled : state :=
  mkState (PyDict [("apple", PyInt 7); ("banana", PyInt 5)]) []
    {[ "inventory.json" := File "{not json" ]} false.

(** [sample] beside an [inventory.json] the process may not open. *)
Definition locked : state :=
  mkState (PyDict [("apple", PyInt 7); ("banana", PyInt 5)]) []
    {[ "inventory.json" := Forbidden ]} false.

(** A ledger as a file may leave it: the quantity of ["apple"] is a str. *)
Definition mixed : state :=
  mkState (PyDict [("apple", PyStr "seven"); ("banana", PyInt 5)]) [] ∅ false.

(** [sample] beside an [inventory.json] that holds another ledger,
    [{"pear": 2}], as [json.dump] lays it out. *)
Definition stored : state :=
  mkState (PyDict [("apple", PyInt 7); ("banana", PyInt 5)]) []
    {[ "inventory.json" :=
         File (Ascii_json.dump 0 (PyDict [("pear", PyInt 2)])) ]} false.


(** A path with a NUL character in it. *)
Definition nul_path : string := String zero "inventory.json".

(** * Properties *)

(** ** The dict operations *)

Module DictFacts.
Import Dict.

Lemma eqb_true (a b : string) : String.eqb a b = true <-> a = b.
Proof. apply String.eqb_eq. Qed.

Lemma eqb_false (a b : string) : String.eqb a b = false <-> a <> b.
Proof. apply String.eqb_neq. Qed.

Lemma get_set_same d k v : get (set d k v) k = Some v.
Proof.
  induction d as [|[k' v'] r IH]; simpl.
  - by rewrite String.eqb_refl.
  - destruct (String.eqb k' k) eqn:E; simpl.
    + by rewrite String.eqb_refl.
    + by rewrite E.
Qed.

Lemma get_set_other d k v k' : k <> k' -> get (set d k v) k' = get d k'.
Proof.
  intros Hne. induction d as [|[k0 v0] r IH]; simpl.
  - by apply eqb_false in Hne as ->.
  - destruct (String.eqb k0 k) eqn:E; simpl.
    + apply eqb_true in E as ->.
      by apply eqb_false in Hne as ->.
    + by rewrite IH.
Qed.

Lemma get_del_same d k : get (del d k) k = None.
Proof.
  induction d as [|[k' v'] r IH]; simpl; [done|].
  destruct (String.eqb k' k) eqn:E; simpl; [done|]. by rewrite E.
Qed.

Lemma get_del_other d k k' : k <> k' -> get (del d k) k' = get d k'.
Proof.
  intros Hne. induction d as [|[k0 v0] r IH]; simpl; [done|].
  destruct (String.eqb k0 k) eqn:E; simpl.
  - apply eqb_true in E as ->. by apply eqb_false in Hne as ->.
  - by rewrite IH.
Qed.

Lemma del_set d k v : del (set d k v) k = del d k.
Proof.
  induction d as [|[k' v'] r IH]; simpl.
  - by rewrite String.eqb_refl.
  - destruct (String.eqb k' k) eqn:E; simpl.
    + by rewrite String.eqb_refl.
    + by rewrite E, IH.
Qed.

Lemma del_absent d k : get d k = None -> del d k = d.
Proof.
  induction d as [|[k' v'] r IH]; simpl; [done|].
  destruct (String.eqb k' k); [done|]. intros Hr. by rewrite IH.
Qed.

Lemma mem_set d k v : mem (set d k v) k = true.
Proof. unfold mem. by rewrite get_set_same. Qed.

Lemma get_elem_of d k v : get d k = Some v -> (k, v) ∈ d.
Proof.
  induction d as [|[k' v'] r IH]; simpl; [done|].
  destruct (String.eqb k' k) eqn:E.
  - apply eqb_true in E as ->. intros [= ->]. by left.
  - intros Hr. right. by apply IH.
Qed.

Lemma elem_of_get d k v : wf d -> (k, v) ∈ d -> get d k = Some v.
Proof.
  unfold wf, keys.
  induction d as [|[k' v'] r IH]; simpl; [by intros _ ?%elem_of_nil|].
  intros [Hk Hr]%NoDup_cons [Heq|Hin]%elem_of_cons.
  - injection Heq as -> ->. by rewrite String.eqb_refl.
  - destruct (String.eqb k' k) eqn:E.
    + apply eqb_true in E as ->. exfalso. apply Hk.
      change k with (fst (k, v)). by apply list_elem_of_fmap_2.
    + by apply IH.
Qed.

Lemma Forall_set (P : string * pyval -> Prop) d k v :
  Forall P d -> P (k, v) -> Forall P (set d k v).
Proof.
  intros Hd Hp. induction Hd as [|[k' v'] r Hx Hr IH]; simpl.
  - by constructor.
  - destruct (String.eqb k' k); by constructor.
Qed.

Lemma Forall_del (P : string * pyval -> Prop) d k :
  Forall P d -> Forall P (del d k).
Proof.
  intros Hd. induction Hd as [|[k' v'] r Hx Hr IH]; simpl; [done|].
  destruct (String.eqb k' k); [done|]. by constructor.
Qed.

Lemma get_app (a b : t) k :
  get (a ++ b) k = match get a k with Some v => Some v | None => get b k end.
Proof.
  induction a as [|[k' v'] a IH]; simpl; [done|].
  by destruct (String.eqb k' k).
Qed.

Lemma set_fresh (a : t) k v : get a k = None -> set a k v = a ++ [(k, v)].
Proof.
  induction a as [|[k' v'] a IH]; simpl; [done|].
  destruct (String.eqb k' k); [done|]. intros Hg. by rewrite IH.
Qed.

End DictFacts.

(** ** The reader on what the writer lays out for a ledger *)

Module Ascii_json_facts.
Import Ascii_json DictFacts.

Lemma append_cons x (a b : string) : String x a +:+ b = String x (a +:+ b).
Proof. reflexivity. Qed.

Lemma append_assoc (a b c : string) : (a +:+ b) +:+ c = a +:+ (b +:+ c).
Proof.
  induction a as [|x a IH]; [done|]. rewrite !append_cons. by f_equal.
Qed.

Lemma ascii_only_append a b :
  ascii_only (a +:+ b) = ascii_only a && ascii_only b.
Proof.
  induction a as [|x a IH]; [done|]. rewrite append_cons. simpl.
  by rewrite IH, andb_assoc.
Qed.

Ltac each_char c :=
  destruct c as [[] [] [] [] [] [] [] []].

Lemma read_string_escape c rest :
  read_string (escape c +:+ rest) =
    match read_string rest with
    | Some (t, r) => Some (String c t, r)
    | None => None
    end.
Proof. each_char c; reflexivity. Qed.

Lemma ascii_only_escape c : ascii_only (escape c) = true.
Proof. each_char c; reflexivity. Qed.

Lemma read_string_escape_all k rest :
  read_string (escape_all k +:+ String dquote rest) = Some (k, rest).
Proof.
  induction k as [|c k IH]; [done|].
  change (escape_all (String c k)) with (escape c +:+ escape_all k).
  by rewrite append_assoc, read_string_escape, IH.
Qed.

Lemma ascii_only_escape_all k : ascii_only (escape_all k) = true.
Proof.
  induction k as [|c k IH]; [done|].
  change (escape_all (String c k)) with (escape c +:+ escape_all k).
  by rewrite ascii_only_append, ascii_only_escape, IH.
Qed.

(** Numbers: the reader gives back the integer [pretty] printed. *)

Lemma digit_of_pretty_N_char d :
  (d < 10)%N -> digit_of (pretty_N_char d) = Some (Z.of_N d).
Proof.
  intros Hd.
  assert (d = 0 \/ d = 1 \/ d = 2 \/ d = 3 \/ d = 4 \/ d = 5 \/ d = 6 \/
          d = 7 \/ d = 8 \/ d = 9)%N as Hcases by lia.
  by repeat destruct Hcases as [->|Hcases]; [..|subst d].
Qed.

Lemma pretty_N_go_append x : forall s rest,
  pretty_N_go x s +:+ rest = pretty_N_go x (s +:+ rest).
Proof.
  induction (N.lt_wf_0 x) as [x _ IH]; intros s rest.
  destruct (decide (x = 0)%N) as [->|Hx]; [by rewrite !pretty_N_go_0|].
  rewrite (pretty_N_go_step x s), (pretty_N_go_step x (s +:+ rest)) by lia.
  rewrite IH by (apply N.div_lt; lia). by rewrite append_cons.
Qed.

Lemma read_digits_pretty_N_go x :
  exists m, forall acc s,
    read_digits acc (pretty_N_go x s) = read_digits (acc * m + Z.of_N x) s.
Proof.
  induction (N.lt_wf_0 x) as [x _ IH].
  destruct (decide (x = 0)%N) as [->|Hx].
  - exists 1. intros acc s. rewrite pretty_N_go_0. f_equal. lia.
  - destruct (IH (x `div` 10)%N) as [m Hm]; [apply N.div_lt; lia|].
    exists (10 * m). intros acc s.
    rewrite pretty_N_go_step, Hm by lia. simpl.
    rewrite digit_of_pretty_N_char by (apply N.mod_lt; lia).
    f_equal. rewrite (N.div_mod x 10) at 3 by lia.
    rewrite N2Z.inj_add, N2Z.inj_mul. simpl. lia.
Qed.

Lemma pretty_N_go_head x : forall s,
  (0 < x)%N ->
  exists c r d,
    pretty_N_go x s = String c r /\ digit_of c = Some d /\ 0 < d.
Proof.
  induction (N.lt_wf_0 x) as [x _ IH]; intros s Hx.
  rewrite pretty_N_go_step by done.
  destruct (decide (x `div` 10 = 0)%N) as [Hsmall|Hbig].
  - rewrite Hsmall, pretty_N_go_0. do 3 eexists. split; [done|].
    assert (x < 10)%N.
    { pose proof (N.div_mod x 10). pose proof (N.mod_lt x 10). lia. }
    rewrite N.mod_small by done.
    rewrite digit_of_pretty_N_char by done. split; [done|lia].
  - apply IH; [apply N.div_lt; lia|by apply N.neq_0_lt_0].
Qed.

Lemma read_digits_stops acc rest :
  stops rest = true -> read_digits acc rest = (acc, rest).
Proof.
  destruct rest as [|c r]; [done|]. simpl.
  by destruct (digit_of c).
Qed.

Lemma read_natural_pretty (x : N) rest :
  stops rest = true ->
  read_natural (pretty x +:+ rest) = Some (Z.of_N x, rest).
Proof.
  intros Hstop. unfold pretty, pretty_N.
  destruct (decide (x = 0)%N) as [->|Hx].
  - destruct rest as [|c r]; [done|].
    unfold read_natural. simpl in *.
    destruct (digit_of c); [done|].
    by apply negb_true_iff in Hstop as ->.
  - rewrite pretty_N_go_append. change (EmptyString +:+ rest) with rest.
    destruct (pretty_N_go_head x rest) as (c & r & d & Hhead & Hc & Hd);
      [lia|].
    destruct (read_digits_pretty_N_go x) as [m Hm].
    specialize (Hm 0 rest). rewrite Hhead in *.
    simpl in Hm. rewrite Hc in Hm.
    rewrite (read_digits_stops _ rest) in Hm by done.
    unfold read_natural. rewrite Hc.
    destruct (Z.eqb_spec d 0); [lia|].
    replace (10 * 0 + d) with d in Hm by lia. rewrite Hm.
    replace (0 * m + Z.of_N x) with (Z.of_N x) by lia.
    destruct rest as [|c' r']; [done|]. simpl in Hstop.
    destruct (digit_of c'); [done|].
    by apply negb_true_iff in Hstop as ->.
Qed.

Local Arguments read_natural : simpl never.

Lemma digit_char c d :
  digit_of c = Some d ->
  is_ws c = false /\ Ascii.eqb c "{" = false /\ Ascii.eqb c "[" = false /\
  Ascii.eqb c dquote = false /\ Ascii.eqb c "-" = false.
Proof. each_char c; simpl; try discriminate; done. Qed.

Lemma read_value_pretty f (q : Z) rest :
  stops rest = true ->
  read_value (S f) (String " " (pretty q +:+ rest)) = Some (PyInt q, rest).
Proof.
  intros Hstop. destruct q as [|p|p].
  - pose proof (read_natural_pretty 0 rest Hstop) as Hn.
    change (pretty 0%N +:+ rest) with (String "0" rest) in Hn.
    change (pretty 0 +:+ rest) with (String "0" rest).
    simpl. by rewrite Hn.
  - pose proof (read_natural_pretty (N.pos p) rest Hstop) as Hn.
    change (pretty (Z.pos p)) with (pretty (N.pos p)).
    assert (exists c r d, pretty (N.pos p) +:+ rest = String c r /\
                          digit_of c = Some d) as (c & r & d & Hhead & Hc).
    { unfold pretty, pretty_N. destruct (decide _); [done|].
      rewrite pretty_N_go_append.
      destruct (pretty_N_go_head (N.pos p) (EmptyString +:+ rest))
        as (c & r & d & ? & ? & _); [done|]. eauto. }
    rewrite Hhead in *. destruct (digit_char c d Hc) as (Hw & H1 & H2 & H3 & H4).
    simpl. rewrite Hw, H1, H2, H3, H4, Hn. done.
  - pose proof (read_natural_pretty (N.pos p) rest Hstop) as Hn.
    change (pretty (Z.neg p)) with ("-" +:+ pretty (N.pos p)).
    rewrite append_assoc, append_cons. simpl.
    change (EmptyString +:+ pretty (N.pos p) +:+ rest)
      with (pretty (N.pos p) +:+ rest).
    by rewrite Hn.
Qed.

Lemma dump_ledger l :
  l <> [] ->
  dump 0 (PyDict (to_dict l)) = "{" +:+ lines 0 (map item_text l) +:+ closing.
Proof.
  destruct l as [|p r]; [done|]. intros _.
  unfold to_dict. cbn [dump map]. rewrite map_map. done.
Qed.

Lemma skip_ws_spaces n s : skip_ws (spaces n +:+ s) = skip_ws s.
Proof.
  induction n as [|n IH]; [done|].
  change (spaces (S n) +:+ s) with (String " " (spaces n +:+ s)).
  cbn [skip_ws]. change (is_ws " ") with true. by cbn iota.
Qed.

Lemma skip_ws_newline depth s : skip_ws (newline depth +:+ s) = skip_ws s.
Proof.
  unfold newline. rewrite append_cons. cbn [skip_ws].
  change (is_ws (ascii_of_N 10)) with true. cbn iota. apply skip_ws_spaces.
Qed.

Lemma item_text_tail p rest :
  item_text p +:+ rest =
    String dquote
      (escape_all (fst p) +:+
         String dquote (String ":" (String " " (pretty (snd p) +:+ rest)))).
Proof.
  unfold item_text, quoted. rewrite !append_cons, !append_assoc.
  by rewrite !append_cons.
Qed.

Lemma read_members_lines l : forall acc fuel,
  l <> [] ->
  (length l < fuel)%nat ->
  (forall p, p ∈ l -> Dict.get acc (fst p) = None) ->
  NoDup (map fst l) ->
  read_members fuel acc (skip_ws (lines 0 (map item_text l) +:+ closing))
  = Some (PyDict (acc ++ to_dict l), EmptyString).
Proof.
  induction l as [|p r IH]; intros acc fuel Hne Hfuel Hfresh Hnd; [done|].
  destruct fuel as [|f]; [simpl in Hfuel; lia|].
  rewrite fmap_cons in Hnd. apply NoDup_cons in Hnd as [Hp Hnd].
  assert (Dict.get acc (fst p) = None) as Hk by (apply Hfresh; left).
  assert (lines 0 (map item_text (p :: r)) +:+ closing =
          newline 1 +:+ item_text p +:+
            match r with
            | [] => closing
            | _ => String "," (lines 0 (map item_text r) +:+ closing)
            end) as ->.
  { destruct r; cbn [map lines]; by rewrite !append_assoc. }
  rewrite skip_ws_newline, item_text_tail.
  cbn [skip_ws is_ws]. change (is_ws dquote) with false. cbn iota.
  cbn [read_members]. rewrite Ascii.eqb_refl, read_string_escape_all.
  cbn [skip_ws]. change (is_ws ":") with false. cbn iota.
  destruct f as [|f]; [simpl in Hfuel; lia|].
  rewrite read_value_pretty by (by destruct r).
  rewrite set_fresh by done.
  destruct r as [|p' r'].
  - unfold closing. rewrite skip_ws_newline. done.
  - set (r := p' :: r') in *.
    cbn [skip_ws]. change (is_ws ",") with false. cbn iota.
    rewrite IH; [|done|simpl in *; lia| |done].
    + by rewrite <- app_assoc.
    + intros q Hq. rewrite get_app, Hfresh by (by right). simpl.
      destruct (String.eqb_spec (fst p) (fst q)) as [Heq|]; [|done].
      exfalso. apply Hp. rewrite Heq. by apply list_elem_of_fmap_2.
Qed.

Lemma ascii_only_pretty_N_go x : forall s,
  ascii_only (pretty_N_go x s) = ascii_only s.
Proof.
  induction (N.lt_wf_0 x) as [x _ IH]; intros s.
  destruct (decide (x = 0)%N) as [->|Hx]; [by rewrite pretty_N_go_0|].
  rewrite pretty_N_go_step, IH by (try apply N.div_lt; lia).
  cbn [ascii_only]. unfold pretty_N_char. by repeat case_match.
Qed.

Lemma ascii_only_pretty (q : Z) : ascii_only (pretty q) = true.
Proof.
  assert (forall p, ascii_only (pretty (N.pos p)) = true) as Hpos.
  { intros p. unfold pretty, pretty_N. destruct (decide _); [done|].
    by rewrite ascii_only_pretty_N_go. }
  destruct q as [|p|p]; [done|apply Hpos|].
  change (pretty (Z.neg p)) with ("-" +:+ pretty (N.pos p)).
  by rewrite ascii_only_append, Hpos.
Qed.

Lemma ascii_only_spaces n : ascii_only (spaces n) = true.
Proof. induction n as [|n IH]; [done|exact IH]. Qed.

Lemma ascii_only_newline depth : ascii_only (newline depth) = true.
Proof. unfold newline. cbn [ascii_only]. apply ascii_only_spaces. Qed.

Lemma ascii_only_item_text p : ascii_only (item_text p) = true.
Proof.
  unfold item_text, quoted.
  rewrite append_cons. cbn [ascii_only].
  by rewrite !ascii_only_append, ascii_only_escape_all, ascii_only_pretty.
Qed.

Lemma ascii_only_lines l : ascii_only (lines 0 (map item_text l)) = true.
Proof.
  induction l as [|p r IH]; [done|].
  destruct r as [|p' r'].
  - cbn [map lines].
    by rewrite ascii_only_append, ascii_only_newline, ascii_only_item_text.
  - change (lines 0 (map item_text (p :: p' :: r')))
      with (newline 1 +:+ item_text p +:+
              String "," (lines 0 (map item_text (p' :: r')))).
    rewrite !ascii_only_append, ascii_only_newline, ascii_only_item_text.
    cbn [ascii_only]. by rewrite IH.
Qed.

Lemma length_append (a b : string) :
  String.length (a +:+ b) = (String.length a + String.length b)%nat.
Proof.
  induction a as [|x a IH]; [done|]. rewrite append_cons. simpl. by rewrite IH.
Qed.

Lemma length_lines (items : list string) :
  (length items <= String.length (lines 0 items))%nat.
Proof.
  induction items as [|x r IH]; [done|].
  destruct r as [|y r'].
  - cbn [lines]. rewrite length_append. simpl. lia.
  - change (lines 0 (x :: y :: r'))
      with (newline 1 +:+ x +:+ String "," (lines 0 (y :: r'))).
    rewrite !length_append. simpl in *. lia.
Qed.

Lemma skip_ws_lines l :
  l <> [] ->
  exists R, skip_ws (lines 0 (map item_text l) +:+ closing) = String dquote R.
Proof.
  destruct l as [|p r]; [done|]. intros _.
  assert (lines 0 (map item_text (p :: r)) +:+ closing =
          newline 1 +:+ item_text p +:+
            match r with
            | [] => closing
            | _ => String "," (lines 0 (map item_text r) +:+ closing)
            end) as ->.
  { destruct r; cbn [map lines]; by rewrite !append_assoc. }
  rewrite skip_ws_newline, item_text_tail. by eexists.
Qed.

Lemma read_value_object f body R :
  skip_ws body = String dquote R ->
  read_value (S f) (String "{" body) = read_members f [] (skip_ws body).
Proof.
  intros HR. cbn [read_value skip_ws]. change (is_ws "{") with false.
  cbn iota. rewrite Ascii.eqb_refl, HR. reflexivity.
Qed.

(** The reader gives back every ledger the writer lays out. *)
Theorem load_dump_ledger (l : list (string * Z)) :
  NoDup (map fst l) ->
  load (dump 0 (PyDict (to_dict l))) = Parsed (PyDict (to_dict l)).
Proof.
  intros Hnd. destruct (decide (l = [])) as [->|Hne]; [done|].
  rewrite dump_ledger by done. unfold load.
  set (body := lines 0 (map item_text l) +:+ closing).
  assert (ascii_only ("{" +:+ body) = true) as ->.
  { unfold body, closing. rewrite append_cons. cbn [ascii_only].
    by rewrite !ascii_only_append, ascii_only_lines, ascii_only_newline. }
  cbn [negb]. rewrite append_cons.
  change (String "{" (EmptyString +:+ body)) with (String "{" body).
  destruct (skip_ws_lines l Hne) as [R HR]. fold body in HR.
  rewrite (read_value_object _ body R HR).
  unfold body. rewrite read_members_lines; [done|done| |done|done].
  cbn [String.length]. rewrite length_append.
  pose proof (length_lines (map item_text l)) as Hlen.
  rewrite length_map in Hlen. lia.
Qed.

End Ascii_json_facts.

(** ** The functions on a state whose [stock_data] is a dict *)

Section OnDict.
Import DictFacts.

Variables (s : state) (d : Dict.t).
Hypothesis Hd : stock_data s = PyDict d.

Lemma remove_item_dict item qty :
  remove_item item qty s =
    match Dict.get d item with
    | None =>
        Returned tt
          (add_log ERROR (Str (KeyError (Item_not_found item))) s)
    | Some v =>
        match as_int v with
        | None => Raised TypeError s
        | Some x =>
            if x - qty <=? 0
            then Returned tt
                   (add_log INFO (Removed_all item)
                      (set_stock (PyDict (Dict.del d item)) s))
            else Returned tt
                   (set_stock
                      (PyDict (Dict.set d item (PyInt (x - qty)))) s)
        end
    end.
Proof.
  destruct s as [sd lg fs full]; simpl in Hd; subst sd.
  unfold remove_item. run. unfold Dict.mem.
  destruct (Dict.get d item) as [v|] eqn:Hg; simpl; [|done].
  rewrite Hg. unfold py_sub. destruct (as_int v) as [x|]; simpl; [|done].
  rewrite get_set_same. simpl.
  destruct (x - qty <=? 0); simpl; [|done].
  unfold Dict.mem. rewrite get_set_same. simpl. by rewrite del_set.
Qed.

Lemma add_item_dict name qty logs now :
  name <> EmptyString ->
  add_item (PyStr name) qty logs now s =
    let logs := match logs with None => [] | Some l => l end in
    match as_int qty with
    | None =>
        Returned logs
          (add_log ERROR (Invalid_quantity_type (type_of qty)) s)
    | Some q =>
        match py_add (match Dict.get d name with
                      | Some v => v
                      | None => PyInt 0
                      end) qty with
        | inl e => Raised e s
        | inr total =>
            Returned (logs ++ [Added now qty name])
              (add_log INFO (Added now qty name)
                 (set_stock (PyDict (Dict.set d name total)) s))
        end
    end.
Proof.
  destruct s as [sd lg fs full]; simpl in Hd; subst sd. intros Hne.
  unfold add_item. simpl. apply eqb_false in Hne as ->. simpl.
  destruct qty; simpl; try done; run.
  all: destruct (py_add _ _); simpl; done.
Qed.

Lemma get_qty_dict item :
  get_qty item s =
    Returned (match Dict.get d item with
              | Some v => v
              | None => PyInt 0
              end) s.
Proof. destruct s; simpl in Hd; subst. reflexivity. Qed.

End OnDict.

(** ** Removal *)

(** C7: when [item] is not in the mapping, [remove_item(item, qty)]
    returns (it does not raise), leaves [stock_data] as it was, so with
    the same size and contents, and logs one message at error level, the
    text of the [KeyError] it raised and caught. *)
Theorem remove_item_absent (s : state) (d : Dict.t) (item : string)
    (qty : Z) :
  stock_data s = PyDict d ->
  Dict.get d item = None ->
  exists s',
    remove_item item qty s = Returned tt s' /\
    stock_data s' = stock_data s /\
    log s' = log s ++ [(ERROR, Str (KeyError (Item_not_found item)))] /\
    files s' = files s.
Proof.
  intros Hd Hg. rewrite (remove_item_dict s d Hd), Hg.
  eexists. split; [reflexivity|]. by destruct s.
Qed.

Lemma remove_item_absent_witness :
  exists s',
    remove_item "orange" 1 sample = Returned tt s' /\
    stock_data s' = stock_data sample /\
    log s' = log sample ++
               [(ERROR, Str (KeyError (Item_not_found "orange")))] /\
    files s' = files sample.
Proof.
  apply (remove_item_absent sample
           [("apple", PyInt 7); ("banana", PyInt 5)] "orange" 1);
    reflexivity.
Defined.

(** C5: when [item] is in the mapping with the integer [previous],
    [remove_item(item, qty)] returns and [get_qty(item)] then answers 0 if
    [previous - qty <= 0], the key having been deleted, and
    [previous - qty] otherwise. *)
Theorem remove_item_then_get_qty (s : state) (d : Dict.t) (item : string)
    (previous qty : Z) :
  stock_data s = PyDict d ->
  Dict.get d item = Some (PyInt previous) ->
  exists s',
    remove_item item qty s = Returned tt s' /\
    get_qty item s' =
      Returned (PyInt (if previous - qty <=? 0 then 0 else previous - qty))
        s' /\
    (previous - qty <= 0 -> absent s' item).
Proof.
  intros Hd Hg. rewrite (remove_item_dict s d Hd), Hg. simpl.
  destruct (Z.leb_spec (previous - qty) 0) as [Hle|Hgt].
  - eexists. split; [reflexivity|]. split.
    + erewrite get_qty_dict by (by destruct s).
      by rewrite DictFacts.get_del_same.
    + intros _. eexists. split; [by destruct s|].
      apply DictFacts.get_del_same.
  - eexists. split; [reflexivity|]. split; [|lia].
    erewrite get_qty_dict by (by destruct s).
    by rewrite DictFacts.get_set_same.
Qed.

Lemma remove_item_then_get_qty_witness :
  exists s',
    remove_item "apple" 3 sample = Returned tt s' /\
    get_qty "apple" s' = Returned (PyInt 4) s' /\
    (7 - 3 <= 0 -> absent s' "apple").
Proof.
  apply (remove_item_then_get_qty sample
           [("apple", PyInt 7); ("banana", PyInt 5)] "apple" 7 3);
    reflexivity.
Defined.

(** C10: whenever [remove_item(item, qty)] returns, [item] is either
    not in the mapping or mapped to an integer above 0, whatever value it
    had and whatever the sign of [qty].  The call does return when the
    value of [item] is a number [x]: then [x - qty] is stored if it is
    above 0 and the key is deleted otherwise. *)
Theorem remove_item_leaves_absent_or_positive (s : state) (d : Dict.t)
    (item : string) (qty : Z) :
  stock_data s = PyDict d ->
  (forall s', remove_item item qty s = Returned tt s' ->
     absent s' item \/ exists q, present s' item (PyInt q) /\ 0 < q) /\
  (forall v x, Dict.get d item = Some v -> as_int v = Some x ->
     exists s',
       remove_item item qty s = Returned tt s' /\
       if 0 <? x - qty
       then present s' item (PyInt (x - qty))
       else absent s' item).
Proof.
  intros Hd. rewrite (remove_item_dict s d Hd). split.
  - intros s'. destruct (Dict.get d item) as [v|] eqn:Hg.
    + destruct (as_int v) as [x|]; [|discriminate].
      destruct (Z.leb_spec (x - qty) 0) as [Hle|Hgt]; intros [= <-].
      * left. eexists. split; [reflexivity|].
        apply DictFacts.get_del_same.
      * right. exists (x - qty). split; [|done].
        eexists. split; [reflexivity|]. apply DictFacts.get_set_same.
    + intros [= <-]. left. exists d. split; [by destruct s|done].
  - intros v x -> ->.
    destruct (Z.leb_spec (x - qty) 0) as [Hle|Hgt];
      (eexists; split; [reflexivity|]).
    + destruct (Z.ltb_spec 0 (x - qty)); [lia|].
      eexists. split; [reflexivity|]. apply DictFacts.get_del_same.
    + destruct (Z.ltb_spec 0 (x - qty)); [|lia].
      eexists. split; [reflexivity|]. apply DictFacts.get_set_same.
Qed.

Lemma remove_item_leaves_absent_or_positive_witness :
  (forall s', remove_item "apple" 9 sample = Returned tt s' ->
     absent s' "apple" \/
     exists q, present s' "apple" (PyInt q) /\ 0 < q) /\
  (forall v x,
     Dict.get [("apple", PyInt 7); ("banana", PyInt 5)] "apple" = Some v ->
     as_int v = Some x ->
     exists s',
       remove_item "apple" 9 sample = Returned tt s' /\
       if 0 <? x - 9
       then present s' "apple" (PyInt (x - 9))
       else absent s' "apple").
Proof.
  apply (remove_item_leaves_absent_or_positive sample
           [("apple", PyInt 7); ("banana", PyInt 5)] "apple" 9).
  reflexivity.
Defined.

(** ** Addition *)

(** C8, as stated, fails: [add_item(0, 5)] has an item that is not a
    string, yet nothing is logged; the test [if not item] returns before
    the type checks are reached. *)
Lemma add_item_falsy_item_is_silent :
  isinstance_str (PyInt 0) = false /\
  ~ rejected_with_error (PyInt 0) (PyInt 5).
Proof.
  split; [reflexivity|]. intros Hrej.
  destruct (Hrej sample None EmptyString) as (r & s' & m & Hrun & _ & Hlog).
  injection Hrun as _ <-. discriminate Hlog.
Qed.

(** C8, amended: with an [item] that is not a string or a [qty] that is
    not an integer, [add_item] returns, and [stock_data] and the files are
    as before; when [item] is truthy one message at error level has been
    logged, and when it is falsy (empty, zero, [None], [False]) nothing
    has. *)
Theorem add_item_wrong_types (s : state) (item qty : pyval)
    (logs : option (list message)) (now : string) :
  isinstance_str item = false \/ isinstance_int qty = false ->
  exists r s',
    add_item item qty logs now s = Returned r s' /\
    stock_data s' = stock_data s /\
    files s' = files s /\
    if truthy item
    then exists m, log s' = log s ++ [(ERROR, m)]
    else log s' = log s.
Proof.
  intros Hty. unfold add_item.
  destruct (truthy item) eqn:Ht; simpl.
  - destruct item; simpl in *;
      try (do 2 eexists; run; repeat split; by eexists).
    destruct Hty as [Hty|Hty]; [discriminate|]. rewrite Hty. simpl.
    do 2 eexists; run; repeat split; by eexists.
  - by do 2 eexists.
Qed.

Lemma add_item_wrong_types_witness :
  exists r s',
    add_item (PyInt 123) (PyStr "ten") None "now" sample = Returned r s' /\
    stock_data s' = stock_data sample /\
    files s' = files sample /\
    exists m, log s' = log sample ++ [(ERROR, m)].
Proof.
  apply (add_item_wrong_types sample (PyInt 123) (PyStr "ten") None "now").
  left. reflexivity.
Defined.

(** C4, as stated, fails for the empty item name: [add_item("", 5)] on
    a fresh ledger is a call with a positive integer quantity, and
    [get_qty("")] afterwards answers 0, not 5; the test [if not item]
    drops the call. *)
Lemma add_item_empty_name_is_dropped :
  let calls := [mkAddition EmptyString 5 None "now"] in
  Forall (fun c => 0 < add_qty c) calls /\
  ~ sums_up calls EmptyString.
Proof.
  split; [by repeat constructor|]. intros Hsum.
  destruct (Hsum ∅ false) as (s & Hrun & Hget).
  injection Hrun as <-. discriminate Hget.
Qed.

Section Sums.
Import DictFacts.

Lemma quantity_integral d item :
  integral d -> quantity d item = PyInt (held d item).
Proof.
  intros Hd. unfold quantity, held.
  destruct (Dict.get d item) as [v|] eqn:Hg; [|done].
  apply get_elem_of in Hg. unfold integral in Hd.
  rewrite Forall_forall in Hd.
  destruct (Hd _ Hg) as [q Hq]. simpl in Hq. by subst v.
Qed.

Lemma add_item_integral s d (c : addition) :
  stock_data s = PyDict d -> integral d ->
  exists logs s' d',
    add_item (PyStr (add_name c)) (PyInt (add_qty c)) (add_logs c)
      (add_now c) s = Returned logs s' /\
    stock_data s' = PyDict d' /\
    integral d' /\
    forall item, item <> EmptyString ->
      held d' item =
        held d item + (if String.eqb (add_name c) item then add_qty c else 0).
Proof.
  intros Hs Hd.
  destruct (String.eqb_spec (add_name c) EmptyString) as [He|Hne].
  - rewrite He. do 2 eexists. exists d. split; [reflexivity|].
    split; [done|]. split; [done|].
    intros item Hi. destruct (String.eqb_spec EmptyString item); [done|lia].
  - rewrite (add_item_dict s d Hs) by done. cbn [as_int].
    fold (quantity d (add_name c)). rewrite quantity_integral by done.
    cbn. do 3 eexists. split; [reflexivity|]. split; [reflexivity|]. split.
    + apply Forall_set; [done|]. by eexists.
    + intros item _. unfold held at 1.
      destruct (String.eqb_spec (add_name c) item) as [<-|Hother].
      * by rewrite get_set_same.
      * rewrite get_set_other by done. fold (held d item). lia.
Qed.

Lemma add_all_integral calls : forall s d,
  stock_data s = PyDict d -> integral d ->
  exists s' d',
    add_all calls s = Returned tt s' /\
    stock_data s' = PyDict d' /\
    integral d' /\
    forall item, item <> EmptyString ->
      held d' item = held d item + total_for item calls.
Proof.
  induction calls as [|c rest IH]; intros s d Hs Hd; simpl.
  - exists s, d. repeat split; [done..|]. intros; lia.
  - destruct (add_item_integral s d c Hs Hd)
      as (logs & s1 & d1 & Hrun & Hs1 & Hd1 & Hstep).
    destruct (IH s1 d1 Hs1 Hd1) as (s2 & d2 & Hrest & Hs2 & Hd2 & Hsum).
    exists s2, d2. split.
    { unfold mbind, py_bind. by rewrite Hrun. }
    repeat split; [done..|].
    intros item Hi. rewrite Hsum, Hstep by done. lia.
Qed.

(** C4, amended: a sequence of [add_item(name, qty)] calls with integer
    quantities on a fresh ledger returns, and [get_qty(item)] for an
    [item] that is not the empty string then answers the sum of the
    quantities passed for it.  (The sign of the quantities plays no part,
    so this covers the calls with positive quantities.) *)
Theorem get_qty_after_additions (calls : list addition) (item : string) :
  item <> EmptyString -> sums_up calls item.
Proof.
  intros Hi fs full.
  destruct (add_all_integral calls (fresh fs full) [] eq_refl)
    as (s & d & Hrun & Hs & Hd & Hsum); [constructor|].
  exists s. split; [done|].
  rewrite (get_qty_dict _ d Hs). fold (quantity d item).
  rewrite quantity_integral, Hsum by done. reflexivity.
Qed.

End Sums.

Lemma get_qty_after_additions_witness :
  sums_up [mkAddition "apple" 10 None "t1";
           mkAddition "banana" 5 None "t2";
           mkAddition "apple" 4 None "t3"] "apple".
Proof.
  apply (get_qty_after_additions
           [mkAddition "apple" 10 None "t1";
            mkAddition "banana" 5 None "t2";
            mkAddition "apple" 4 None "t3"] "apple").
  discriminate.
Defined.

(** ** The threshold scan *)

Lemma low_loop_integral threshold items : forall result s,
  integral items ->
  low_loop threshold items result s =
    Returned (result ++ low_items threshold items) s.
Proof.
  induction items as [|[item v] rest IH]; intros result s Hint; simpl.
  - unfold low_items. simpl. by rewrite app_nil_r.
  - apply Forall_cons in Hint as [[q Hq] Hrest]. simpl in Hq. subst v.
    run. rewrite IH by done. unfold low_items. simpl.
    destruct (q <? threshold); simpl; [|done].
    by rewrite <- app_assoc.
Qed.

Lemma low_items_sublist threshold d :
  low_items threshold d `sublist_of` Dict.keys d.
Proof.
  unfold low_items, Dict.keys.
  induction d as [|[item v] rest IH]; simpl; [constructor|].
  destruct v; simpl; try by apply sublist_cons.
  destruct (n <? threshold); simpl.
  - by apply sublist_skip.
  - by apply sublist_cons.
Qed.

Lemma elem_of_low_items threshold d item :
  Dict.wf d ->
  item ∈ low_items threshold d <->
  exists q, Dict.get d item = Some (PyInt q) /\ q < threshold.
Proof.
  intros Hwf. unfold low_items.
  rewrite list_elem_of_In, in_map_iff. split.
  - intros ([k v] & Hk & Hin). simpl in Hk. subst k.
    apply filter_In in Hin as [Hin Hlow]. simpl in Hlow.
    destruct v; try discriminate. exists n. split; [|lia].
    apply DictFacts.elem_of_get; [done|]. by apply list_elem_of_In.
  - intros (q & Hg & Hlt). exists (item, PyInt q). split; [done|].
    apply filter_In. split.
    + by apply list_elem_of_In, DictFacts.get_elem_of.
    + simpl. lia.
Qed.

(** C9: on a ledger (a dict with each key once and integer
    quantities) [check_low_items(threshold)] returns, without touching the
    state, the names of the entries below the threshold in the order of
    the dict: an item is listed exactly when its quantity is strictly less
    than [threshold], so one whose quantity equals it is not. *)
Theorem check_low_items_lists_items_below (s : state) (d : Dict.t)
    (threshold : Z) :
  stock_data s = PyDict d ->
  Dict.wf d ->
  integral d ->
  exists names,
    check_low_items threshold s = Returned names s /\
    names = low_items threshold d /\
    names `sublist_of` Dict.keys d /\
    forall item,
      item ∈ names <->
      exists q, Dict.get d item = Some (PyInt q) /\ q < threshold.
Proof.
  intros Hs Hwf Hint. exists (low_items threshold d).
  split; [|split; [done|split]].
  - unfold check_low_items. run. rewrite Hs. simpl.
    by rewrite low_loop_integral.
  - apply low_items_sublist.
  - intros item. by apply elem_of_low_items.
Qed.

Lemma check_low_items_lists_items_below_witness :
  exists names,
    check_low_items 7 sample = Returned names sample /\
    names = ["banana"] /\
    names `sublist_of` ["apple"; "banana"] /\
    forall item,
      item ∈ names <->
      exists q,
        Dict.get [("apple", PyInt 7); ("banana", PyInt 5)] item
          = Some (PyInt q) /\ q < 7.
Proof.
  apply (check_low_items_lists_items_below sample
           [("apple", PyInt 7); ("banana", PyInt 5)] 7).
  - reflexivity.
  - unfold Dict.wf. simpl. apply (bool_decide_unpack _). vm_compute. exact I.
  - repeat constructor; by eexists.
Defined.

(** ** Loading and saving *)

Section PersistenceFacts.

Context `{Json}.

Lemma open_error_None_inv file s :
  open_error file s = None ->
  has_nul file = false /\ String.eqb file EmptyString = false.
Proof.
  unfold open_error. destruct (has_nul file); [discriminate|].
  by destruct (String.eqb file EmptyString).
Qed.

Lemma open_read_inv file s text s' :
  open_read file s = Returned text s' ->
  s' = s /\ open_error file s = None /\
  files s !! file = Some (File text).
Proof.
  unfold open_read. destruct (open_error file s); [discriminate|].
  destruct (files s !! file) as [[]|]; try discriminate.
  by intros [= -> ->].
Qed.

(** What [load_data] does, by what [open] and [json.load] do. *)
Lemma load_data_cases file s :
  load_data file s =
    match open_read file s with
    | Raised e _ =>
        if is_FileNotFoundError e
        then Returned tt (set_stock (PyDict [])
                            (add_log WARNING (File_not_found file) s))
        else Raised e s
    | Returned text _ =>
        match json_load text with
        | Parsed v =>
            Returned tt (add_log INFO (Loaded_from file) (set_stock v s))
        | Malformed detail =>
            Returned tt
              (add_log ERROR (Invalid_JSON file (JSONDecodeError detail)) s)
        | Undecodable => Raised UnicodeDecodeError s
        end
    end.
Proof.
  unfold load_data. run. unfold open_read, open_error.
  destruct (has_nul file); [done|].
  destruct (String.eqb file EmptyString); [done|].
  destruct (files s !! file) as [[text| | |]|]; try done.
  by destruct (json_load text).
Qed.

(** C2: when the file exists but [json.load] finds it malformed,
    [load_data] returns with [stock_data] exactly as before the call (not
    emptied, not partly replaced) and one more message, at error level. *)
Theorem load_data_malformed (s : state) (file text detail : string) :
  open_read file s = Returned text s ->
  json_load text = Malformed detail ->
  exists s',
    load_data file s = Returned tt s' /\
    stock_data s' = stock_data s /\
    log s' =
      log s ++ [(ERROR, Invalid_JSON file (JSONDecodeError detail))] /\
    files s' = files s.
Proof.
  intros Hopen Hbad. rewrite load_data_cases, Hopen, Hbad.
  eexists. split; [reflexivity|]. by destruct s.
Qed.

(** A save that meets no obstacle: the file holds what [json.dump]
    wrote, and one message at info level is logged. *)
Lemma save_data_succeeds (s : state) (file : string) :
  open_error file s = None ->
  disk_full s = false ->
  save_data file s =
    Returned tt
      (add_log INFO (Saved_to file)
         (set_file file (File (json_dump (stock_data s)))
            (set_file file (File EmptyString) s))).
Proof.
  intros Hopen Hroom. unfold save_data, open_write, write_close. run.
  rewrite Hopen. simpl. by rewrite Hroom.
Qed.

(** The load that follows it reads that text. *)
Lemma load_data_after_save (s : state) (file : string) (v : pyval) :
  open_error file s = None ->
  json_load (json_dump (stock_data s)) = Parsed v ->
  exists s2,
    load_data file
      (add_log INFO (Saved_to file)
         (set_file file (File (json_dump (stock_data s)))
            (set_file file (File EmptyString) s)))
    = Returned tt s2 /\
    stock_data s2 = v.
Proof.
  intros Hopen Hjson.
  destruct (open_error_None_inv _ _ Hopen) as [Hnul Hname].
  rewrite load_data_cases. unfold open_read, open_error. simpl.
  rewrite Hnul, Hname, lookup_insert_eq, Hjson. by eexists.
Qed.

(** C6: when the file operations succeed (the path can be opened, the
    disk takes the text) and [json.load] reads back what [json.dump]
    wrote for the current mapping, [save_data(file)] followed by
    [load_data(file)] leaves [stock_data] equal to what it was before the
    save. *)
Theorem save_data_then_load_data (s : state) (file : string) :
  open_error file s = None ->
  disk_full s = false ->
  json_load (json_dump (stock_data s)) = Parsed (stock_data s) ->
  exists s1 s2,
    save_data file s = Returned tt s1 /\
    load_data file s1 = Returned tt s2 /\
    stock_data s2 = stock_data s.
Proof.
  intros Hopen Hroom Hjson.
  destruct (load_data_after_save s file _ Hopen Hjson) as (s2 & Hload & Hs2).
  eexists _, s2. split; [by apply save_data_succeeds|]. by split.
Qed.

(** C3 does not hold of [load_data]: on a file the process may not
    open, [open] raises [PermissionError], neither [except] clause takes
    it, and it reaches the caller with nothing logged.  [save_data], whose
    clause is [except IOError], returns on the same path with an error
    message. *)
Theorem load_data_lets_PermissionError_out :
  load_data "inventory.json" locked = Raised (OSError EACCES) locked /\
  save_data "inventory.json" locked =
    Returned tt
      (add_log ERROR (Error_saving "inventory.json" (OSError EACCES))
         locked).
Proof. split; reflexivity. Qed.

End PersistenceFacts.

Lemma load_data_malformed_witness :
  exists s',
    @load_data Ascii_json.json "inventory.json" garbled = Returned tt s' /\
    stock_data s' = stock_data garbled /\
    log s' =
      log garbled ++
        [(ERROR, Invalid_JSON "inventory.json"
                   (JSONDecodeError "Expecting value"))] /\
    files s' = files garbled.
Proof.
  apply (@load_data_malformed Ascii_json.json garbled "inventory.json"
           "{not json" "Expecting value").
  - reflexivity.
  - vm_compute. reflexivity.
Defined.

Lemma save_data_then_load_data_witness :
  exists s1 s2,
    @save_data Ascii_json.json "inventory.json" sample = Returned tt s1 /\
    @load_data Ascii_json.json "inventory.json" s1 = Returned tt s2 /\
    stock_data s2 = stock_data sample.
Proof.
  apply (@save_data_then_load_data Ascii_json.json sample "inventory.json").
  - reflexivity.
  - reflexivity.
  - vm_compute. reflexivity.
Defined.

(** With the reader and writer above the round trip needs no assumption
    on the library: it holds of every ledger, a dict with each name once
    and integer quantities. *)
Lemma round_trip_of_ledgers (s : state) (l : list (string * Z))
    (file : string) :
  stock_data s = PyDict (to_dict l) ->
  NoDup (map fst l) ->
  open_error file s = None ->
  disk_full s = false ->
  exists s1 s2,
    @save_data Ascii_json.json file s = Returned tt s1 /\
    @load_data Ascii_json.json file s1 = Returned tt s2 /\
    stock_data s2 = stock_data s.
Proof.
  intros Hs Hnd Hopen Hroom.
  destruct (@load_data_after_save Ascii_json.json s file (stock_data s) Hopen)
    as (s2 & Hload & Hs2).
  { rewrite Hs. by apply Ascii_json_facts.load_dump_ledger. }
  eexists _, s2. split; [by apply save_data_succeeds|]. by split.
Qed.

(** ** The invariant on quantities *)

(** C1, as stated, fails: [add_item()] with the defaults of its own
    parameters, [item="default"] and [qty=0], stores the quantity 0 on a
    fresh ledger.  [add_item] adds whatever integer it is given and never
    deletes. *)
Lemma add_item_stores_zero :
  ~ (forall s, @reachable Ascii_json.json any_call s ->
               positive_quantities s).
Proof.
  intros Hall.
  destruct (Hall _ (reach_call any_call
                      (Add_item default_item default_qty None "now") _
                      (reach_fresh any_call ∅ false) I)
              "default" (PyInt 0)) as (q & Hq & Hpos).
  - eexists. split; reflexivity.
  - injection Hq as <-. lia.
Qed.

Section Invariant.

Context `{Json}.
Import DictFacts.

Lemma positive_integral d : positive d -> integral d.
Proof.
  intros Hd. eapply Forall_impl; [exact Hd|].
  intros p (q & Hq & _). by exists q.
Qed.

Lemma positive_held d item : positive d -> 0 <= held d item.
Proof.
  intros Hd. unfold held.
  destruct (Dict.get d item) as [v|] eqn:Hg; [|done].
  apply get_elem_of in Hg. unfold positive in Hd.
  rewrite Forall_forall in Hd.
  destruct (Hd _ Hg) as (q & Hq & Hpos). simpl in Hq. subst v. lia.
Qed.

Lemma positive_present s d item v :
  stock_data s = PyDict d -> positive d -> present s item v ->
  exists q, v = PyInt q /\ 0 < q.
Proof.
  intros Hs Hd (d' & Hs' & Hg). rewrite Hs in Hs'. injection Hs' as <-.
  apply get_elem_of in Hg. unfold positive in Hd.
  rewrite Forall_forall in Hd. apply (Hd _ Hg).
Qed.

Lemma kept_add_item s item qty logs now :
  kept s -> (forall n, as_int qty = Some n -> 0 < n) ->
  kept (final (add_item item qty logs now s)).
Proof.
  intros (d & Hs & Hd) Hqty.
  destruct (truthy item) eqn:Ht.
  2:{ unfold add_item. rewrite Ht. simpl. by exists d. }
  destruct item as [| | |name| |];
    try (unfold add_item; rewrite Ht; simpl; by exists d).
  assert (name <> EmptyString) as Hne.
  { intros ->. discriminate Ht. }
  rewrite (add_item_dict s d Hs) by done. cbn zeta.
  destruct (as_int qty) as [n|] eqn:Hn; [|by exists d].
  fold (quantity d name). rewrite quantity_integral
    by by apply positive_integral.
  unfold py_add. rewrite Hn. simpl.
  eexists. split; [reflexivity|].
  apply Forall_set; [done|]. eexists. split; [reflexivity|].
  specialize (Hqty n eq_refl). pose proof (positive_held d name Hd). lia.
Qed.

Lemma kept_remove_item s item qty :
  kept s -> kept (final (remove_item item qty s)).
Proof.
  intros (d & Hs & Hd). rewrite (remove_item_dict s d Hs).
  destruct (Dict.get d item) as [v|] eqn:Hg; [|by exists d].
  destruct (positive_present s d item v Hs Hd) as (x & -> & Hx).
  { by exists d. }
  simpl. destruct (Z.leb_spec (x - qty) 0).
  - eexists. split; [reflexivity|]. by apply Forall_del.
  - eexists. split; [reflexivity|]. apply Forall_set; [done|].
    by eexists.
Qed.

Lemma check_low_items_final threshold s :
  final (check_low_items threshold s) = s.
Proof.
  unfold check_low_items. run.
  destruct (py_items (stock_data s)) as [e|items]; simpl; [done|].
  generalize (@nil string). induction items as [|[item v] rest IH];
    intros result; simpl; [done|].
  run. destruct (py_lt v threshold); simpl; [done|]. apply IH.
Qed.

Lemma get_qty_final item s : final (get_qty item s) = s.
Proof.
  unfold get_qty. run. by destruct (py_get _ _ _).
Qed.

Lemma save_data_stock file s :
  stock_data (final (save_data file s)) = stock_data s.
Proof.
  unfold save_data, open_write, write_close. run.
  destruct (open_error file s) as [e|]; simpl.
  - destruct e; simpl; by destruct s.
  - destruct (disk_full s && _); simpl; by destruct s.
Qed.

Lemma kept_load_data s file :
  kept s -> positive_call s (Load_data file) ->
  kept (final (load_data file s)).
Proof.
  intros (d & Hs & Hd) Hfile. rewrite load_data_cases.
  destruct (open_read file s) as [text s'|e s'] eqn:Hopen.
  - apply open_read_inv in Hopen as Hinv. destruct Hinv as (-> & _ & _).
    destruct (json_load text) as [v|detail|] eqn:Hparse; simpl.
    + destruct (Hfile text v Hopen Hparse) as (d' & -> & Hd').
      by exists d'.
    + by exists d.
    + by exists d.
  - destruct (is_FileNotFoundError e); simpl.
    + exists []. split; [done|constructor].
    + by exists d.
Qed.

Lemma kept_after c s : kept s -> positive_call s c -> kept (after c s).
Proof.
  intros Hk Hc. destruct c; simpl.
  - by apply kept_add_item.
  - by apply kept_remove_item.
  - by rewrite get_qty_final.
  - by rewrite check_low_items_final.
  - by apply kept_load_data.
  - destruct Hk as (d & Hs & Hd). exists d.
    by rewrite save_data_stock.
Qed.

(** C1, amended: in every state reached from the fresh ledger by
    additions whose quantity, when it is an integer, is above 0, by
    removals, queries, scans and saves, and by loads of a file that is
    missing, malformed or holds integers above 0, [stock_data] is a dict
    and whatever is in it has a quantity above 0; and a removal that
    brings a quantity to 0 or below deletes the key. *)
Theorem positive_quantities_kept (s : state) :
  reachable positive_call s ->
  (exists d, stock_data s = PyDict d) /\
  positive_quantities s /\
  forall item q qty,
    present s item (PyInt q) -> q - qty <= 0 ->
    absent (after (Remove_item item qty) s) item.
Proof.
  intros Hreach.
  assert (kept s) as (d & Hs & Hd).
  { induction Hreach as [fs full|c s Hreach IH Hc].
    - exists []. split; [done|constructor].
    - by apply kept_after. }
  split; [by exists d|]. split.
  - intros item v. by apply (positive_present s d).
  - intros item q qty (d' & Hs' & Hg) Hle. simpl.
    rewrite (remove_item_dict s d' Hs'), Hg. simpl.
    destruct (Z.leb_spec (q - qty) 0); [|lia].
    eexists. split; [reflexivity|]. apply get_del_same.
Qed.

End Invariant.

Lemma positive_quantities_kept_witness :
  let s :=
    @after Ascii_json.json (Load_data "inventory.json")
      (@after Ascii_json.json (Remove_item "apple" 3)
         (@after Ascii_json.json (Save_data "inventory.json")
            (@after Ascii_json.json
               (Add_item (PyStr "apple") (PyInt 10) None "now")
               (fresh ∅ false)))) in
  (exists d, stock_data s = PyDict d) /\
  positive_quantities s /\
  forall item q qty,
    present s item (PyInt q) -> q - qty <= 0 ->
    absent (@after Ascii_json.json (Remove_item item qty) s) item.
Proof.
  apply (@positive_quantities_kept Ascii_json.json).
  apply reach_call.
  - apply reach_call.
    + apply reach_call.
      * apply reach_call; [apply reach_fresh|].
        simpl. intros n Hn. injection Hn as <-. lia.
      * exact I.
    + exact I.
  - intros text v Hopen Hparse.
    vm_compute in Hopen. injection Hopen as <-.
    vm_compute in Hparse. injection Hparse as <-.
    eexists. split; [reflexivity|].
    repeat constructor. exists 10. split; [reflexivity|lia].
Defined.

(** ** What the two file functions let through *)

Section Escapes.

Context `{Json}.

(** [save_data] returns whenever the path has no NUL character: every
    [OSError] of [open] and of the write is caught and logged, and
    [stock_data] is not touched. *)
Lemma save_data_returns file s :
  has_nul file = false ->
  exists s', save_data file s = Returned tt s' /\
             stock_data s' = stock_data s.
Proof.
  intros Hnul. unfold save_data, open_write, write_close, open_error. run.
  rewrite Hnul.
  destruct (String.eqb file EmptyString); simpl.
  { eexists. split; [reflexivity|]. by destruct s. }
  destruct (files s !! file) as [[]|]; simpl;
    try (eexists; split; [reflexivity|]; by destruct s).
  all: destruct (disk_full s && _); simpl;
    eexists; (split; [reflexivity|]); by destruct s.
Qed.

(** X19: a path with a NUL character makes [open] raise [ValueError],
    which neither [load_data] nor [save_data] catches: both raise it to
    the caller and leave the state as it was. *)
Lemma nul_path_raises file s :
  has_nul file = true ->
  load_data file s = Raised ValueError s /\
  save_data file s = Raised ValueError s.
Proof.
  intros Hnul. rewrite load_data_cases.
  unfold save_data, open_write, open_read, open_error. run.
  by rewrite Hnul.
Qed.


(** X17: a missing file is not an error: [load_data] returns with an
    empty mapping, whatever the mapping held, and one message at warning
    level. *)
Lemma load_data_missing file s :
  has_nul file = false ->
  files s !! file = None ->
  load_data file s =
    Returned tt
      (set_stock (PyDict []) (add_log WARNING (File_not_found file) s)).
Proof.
  intros Hnul Hnone. rewrite load_data_cases.
  unfold open_read, open_error. rewrite Hnul, Hnone.
  by destruct (String.eqb file EmptyString).
Qed.

End Escapes.

(** ** The demonstration of [main] *)

(** The calls of [main] up to its file operations. *)
Example main_scenario :
  let s1 := final (add_item (PyStr "apple") (PyInt 10) None "t1"
                     (fresh ∅ false)) in
  let s2 := final (add_item (PyStr "banana") (PyInt 5) None "t2" s1) in
  let s3 := final (add_item (PyInt 123) (PyStr "ten") None "t3" s2) in
  let s4 := final (remove_item "apple" 3 s3) in
  let s5 := final (remove_item "orange" 1 s4) in
  stock_data s5 = PyDict [("apple", PyInt 7); ("banana", PyInt 5)] /\
  get_qty "apple" s5 = Returned (PyInt 7) s5 /\
  check_low_items 5 s5 = Returned [] s5 /\
  map fst (log s5) = [INFO; INFO; ERROR; ERROR].
Proof. repeat split. Qed.

(** [isinstance(True, int)] holds, so a boolean quantity is added as
    the integer it stands for. *)
Example add_item_boolean_quantity :
  stock_data (final (add_item (PyStr "apple") (PyBool true) None "t1"
                       (fresh ∅ false)))
  = PyDict [("apple", PyInt 1)].
Proof. reflexivity. Qed.

(** What [save_data] writes for the sample ledger, with the reader and
    writer above. *)
Example save_data_text :
  files (final (@save_data Ascii_json.json "inventory.json" sample))
    !! "inventory.json"
  = Some (File (String.concat (String (ascii_of_N 10) EmptyString)
                  ["{";
                   String.append "  "
                     (String.append (Ascii_json.quoted "apple") ": 7,");
                   String.append "  "
                     (String.append (Ascii_json.quoted "banana") ": 5");
                   "}"])).
Proof. vm_compute. reflexivity. Qed.

(** [load_data] takes the quantities of the file as they are: a file
    with a quantity of 0 puts it in the mapping. *)
Example load_data_stores_zero :
  let s := mkState (PyDict []) []
             {[ "inventory.json" :=
                  File (@json_dump Ascii_json.json
                          (PyDict [("apple", PyInt 0)])) ]} false in
  stock_data (final (@load_data Ascii_json.json "inventory.json" s))
  = PyDict [("apple", PyInt 0)].
Proof. vm_compute. reflexivity. Qed.

(** [load_data] binds [stock_data] to whatever value the file holds:
    after loading a JSON array the global is a list, and [get_qty], which
    calls [stock_data.get], raises [AttributeError]. *)
Example load_data_array :
  let s := mkState (PyDict []) []
             {[ "inventory.json" := File "[1, 2]" ]} false in
  let s' := final (@load_data Ascii_json.json "inventory.json" s) in
  stock_data s' = PyList [PyInt 1; PyInt 2] /\
  get_qty "apple" s' = Raised AttributeError s'.
Proof. vm_compute. split; reflexivity. Qed.

(** The example of the specification: with
    [{"apple": 3, "banana": 10}], [check_low_items(5)] is [["apple"]]. *)
Example check_low_items_example :
  let s := mkState (PyDict [("apple", PyInt 3); ("banana", PyInt 10)]) []
             ∅ false in
  check_low_items default_threshold s = Returned ["apple"] s.
Proof. reflexivity. Qed.

(** On a full disk [save_data] returns with an error message; the file
    it opened is left empty. *)
Example save_data_disk_full :
  let s := mkState (PyDict [("apple", PyInt 7)]) []
             {[ "inventory.json" := File "{}" ]} true in
  @save_data Ascii_json.json default_file s =
    Returned tt
      (add_log ERROR (Error_saving "inventory.json" (OSError ENOSPC))
         (set_file "inventory.json" (File EmptyString) s)).
Proof. vm_compute. reflexivity. Qed.

(** * Further properties of the ledger *)

(** ** More on the dict operations *)

Module DictOrder.
Import Dict DictFacts.

Lemma set_set d k v w : set (set d k v) k w = set d k w.
Proof.
  induction d as [|[k' v'] r IH]; simpl.
  - by rewrite String.eqb_refl.
  - destruct (String.eqb k' k) eqn:E; simpl.
    + by rewrite String.eqb_refl.
    + by rewrite E, IH.
Qed.

Lemma set_same d k v : get d k = Some v -> set d k v = d.
Proof.
  induction d as [|[k' v'] r IH]; simpl; [done|].
  destruct (String.eqb k' k) eqn:E.
  - apply eqb_true in E as ->. by intros [= ->].
  - intros Hg. by rewrite IH.
Qed.

Lemma keys_set d k v :
  keys (set d k v) = if mem d k then keys d else keys d ++ [k].
Proof.
  unfold mem, keys. induction d as [|[k' v'] r IH]; simpl; [done|].
  destruct (String.eqb k' k) eqn:E; simpl.
  - by apply eqb_true in E as ->.
  - rewrite IH. by destruct (get r k).
Qed.

Lemma keys_del d k : keys (del d k) `sublist_of` keys d.
Proof.
  unfold keys. induction d as [|[k' v'] r IH]; simpl; [done|].
  destruct (String.eqb k' k); simpl.
  - by apply sublist_cons.
  - by apply sublist_skip.
Qed.



Lemma wf_del d k : wf d -> wf (del d k).
Proof. unfold wf. intros Hnd. by eapply sublist_NoDup; [|apply keys_del]. Qed.

End DictOrder.

(** ** How additions and removals compose *)

Section Composition.
Import DictFacts DictOrder.

(** X1: a removal of the quantity just added undoes the addition.  When
    the name is not in the mapping, or holds an integer above 0,
    [add_item(name, n)] followed by [remove_item(name, n)] returns and
    leaves [stock_data] exactly as it was, order included. *)
Theorem add_item_then_remove_item (s : state) (d : Dict.t) (name : string)
    (n : Z) (logs : option (list message)) (now : string) :
  stock_data s = PyDict d ->
  name <> EmptyString ->
  (Dict.get d name = None \/
   exists q, Dict.get d name = Some (PyInt q) /\ 0 < q) ->
  exists r s1 s2,
    add_item (PyStr name) (PyInt n) logs now s = Returned r s1 /\
    remove_item name n s1 = Returned tt s2 /\
    stock_data s2 = stock_data s.
Proof.
  intros Hs Hne Hheld. rewrite (add_item_dict s d Hs) by done. cbn [as_int].
  destruct Hheld as [Hnone|(q & Hq & Hpos)].
  - rewrite Hnone. cbn. do 3 eexists. split; [reflexivity|].
    erewrite remove_item_dict by reflexivity.
    rewrite get_set_same. cbn [as_int].
    replace (0 + n - n <=? 0) with true by lia.
    split; [reflexivity|]. cbn.
    by rewrite Hs, del_set, del_absent.
  - rewrite Hq. cbn. do 3 eexists. split; [reflexivity|].
    erewrite remove_item_dict by reflexivity.
    rewrite get_set_same. cbn [as_int].
    replace (q + n - n <=? 0) with false by lia.
    split; [reflexivity|]. cbn.
    rewrite Hs, set_set. replace (q + n - n) with q by lia.
    by rewrite set_same.
Qed.

(** X2: a removal that takes more than there is forgets the name: when
    [remove_item(name, n)] brings the quantity to 0 or below, a later
    [add_item(name, m)] starts again from 0, so the quantity is [m], and
    the name is now the last of the mapping. *)
Theorem remove_item_then_add_item (s : state) (d : Dict.t) (name : string)
    (q n m : Z) (logs : option (list message)) (now : string) :
  stock_data s = PyDict d ->
  name <> EmptyString ->
  Dict.get d name = Some (PyInt q) ->
  q - n <= 0 ->
  exists s1 r s2,
    remove_item name n s = Returned tt s1 /\
    add_item (PyStr name) (PyInt m) logs now s1 = Returned r s2 /\
    stock_data s2 = PyDict (Dict.del d name ++ [(name, PyInt m)]).
Proof.
  intros Hs Hne Hq Hle. rewrite (remove_item_dict s d Hs), Hq. cbn [as_int].
  replace (q - n <=? 0) with true by lia.
  do 3 eexists. split; [reflexivity|].
  erewrite add_item_dict by (reflexivity || done).
  rewrite get_del_same. cbn. split; [reflexivity|].
  by rewrite set_fresh by apply get_del_same.
Qed.

(** X3: an addition keeps the order of the mapping: a name already
    there stays in its place, a new name goes last. *)
Theorem add_item_keeps_order (s : state) (d : Dict.t) (name : string)
    (qty : pyval) (logs : option (list message)) (now : string) :
  stock_data s = PyDict d ->
  name <> EmptyString ->
  isinstance_int qty = true ->
  (forall v, Dict.get d name = Some v -> isinstance_int v = true) ->
  exists r s' d',
    add_item (PyStr name) qty logs now s = Returned r s' /\
    stock_data s' = PyDict d' /\
    Dict.keys d' =
      if Dict.mem d name then Dict.keys d else Dict.keys d ++ [name].
Proof.
  intros Hs Hne Hqty Hnum. rewrite (add_item_dict s d Hs) by done.
  assert (exists n, as_int qty = Some n) as [n Hn].
  { destruct qty; try discriminate; by eexists. }
  rewrite Hn. cbn zeta.
  assert (exists x, as_int (match Dict.get d name with
                            | Some v => v
                            | None => PyInt 0
                            end) = Some x) as [x Hx].
  { destruct (Dict.get d name) as [v|]; [|by eexists].
    specialize (Hnum v eq_refl). destruct v; try discriminate; by eexists. }
  unfold py_add. rewrite Hx, Hn.
  do 3 eexists. split; [reflexivity|]. split; [reflexivity|].
  apply keys_set.
Qed.

(** X4: an addition touches no other name: whatever its arguments and
    its outcome, every name other than [item] has the value it had. *)
Theorem add_item_other_items (s : state) (d : Dict.t) (item qty : pyval)
    (logs : option (list message)) (now : string) (other : string) :
  stock_data s = PyDict d ->
  item <> PyStr other ->
  exists d',
    stock_data (final (add_item item qty logs now s)) = PyDict d' /\
    Dict.get d' other = Dict.get d other.
Proof.
  intros Hs Hother.
  destruct (truthy item) eqn:Ht.
  2:{ unfold add_item. rewrite Ht. by exists d. }
  destruct item as [| | |name| |];
    try (unfold add_item; rewrite Ht; by exists d).
  assert (name <> EmptyString) as Hne by (intros ->; discriminate Ht).
  rewrite (add_item_dict s d Hs) by done. cbn zeta.
  destruct (as_int qty); [|by exists d].
  destruct (py_add _ qty); [by exists d|].
  eexists. split; [reflexivity|].
  apply get_set_other. congruence.
Qed.

(** X5: a removal touches no other name and keeps the order of those
    that stay: whatever its outcome, every name other than [item] has the
    value it had, and the names of the mapping are those it had, in the
    same order, less at most [item]. *)
Theorem remove_item_other_items (s : state) (d : Dict.t) (item : string)
    (qty : Z) (other : string) :
  stock_data s = PyDict d ->
  item <> other ->
  exists d',
    stock_data (final (remove_item item qty s)) = PyDict d' /\
    Dict.get d' other = Dict.get d other /\
    Dict.keys d' `sublist_of` Dict.keys d.
Proof.
  intros Hs Hother. rewrite (remove_item_dict s d Hs).
  destruct (Dict.get d item) as [v|] eqn:Hg; [|by exists d].
  destruct (as_int v) as [x|]; [|by exists d].
  destruct (x - qty <=? 0).
  - eexists. split; [reflexivity|]. split.
    + by apply get_del_other.
    + apply keys_del.
  - eexists. split; [reflexivity|]. split.
    + by apply get_set_other.
    + rewrite keys_set. unfold Dict.mem. by rewrite Hg.
Qed.

Lemma low_loop_raises threshold items : forall result s,
  (exists k v, (k, v) ∈ items /\ as_int v = None) ->
  low_loop threshold items result s = Raised TypeError s.
Proof.
  induction items as [|[k v] rest IH]; intros result s (k0 & v0 & Hin & Hv).
  - by apply elem_of_nil in Hin.
  - simpl. run. unfold py_lt.
    destruct (as_int v) as [x|] eqn:Hx; [|done]. simpl.
    apply IH. apply elem_of_cons in Hin as [[= -> ->]|Hin]; [congruence|].
    eauto.
Qed.

(** X6: a quantity that is not a number, as a file can bring one in,
    stops the ledger: [get_qty] hands it out as it is, and an addition to
    it, a removal from it and the threshold scan raise [TypeError] to the
    caller, leaving the state as it was. *)
Theorem non_numeric_quantity_raises (s : state) (d : Dict.t) (name : string)
    (v : pyval) :
  stock_data s = PyDict d ->
  name <> EmptyString ->
  Dict.get d name = Some v ->
  as_int v = None ->
  get_qty name s = Returned v s /\
  (forall qty logs now, isinstance_int qty = true ->
     add_item (PyStr name) qty logs now s = Raised TypeError s) /\
  (forall qty, remove_item name qty s = Raised TypeError s) /\
  (forall threshold, check_low_items threshold s = Raised TypeError s).
Proof.
  intros Hs Hne Hg Hv. repeat split.
  - by rewrite (get_qty_dict s d Hs), Hg.
  - intros qty logs now Hqty. rewrite (add_item_dict s d Hs) by done.
    rewrite Hg. destruct qty; try discriminate; cbn;
      unfold py_add; rewrite Hv; by destruct v.
  - intros qty. by rewrite (remove_item_dict s d Hs), Hg, Hv.
  - intros threshold. unfold check_low_items. run. rewrite Hs. simpl.
    apply low_loop_raises. exists name, v. split; [|done].
    by apply get_elem_of.
Qed.

Lemma low_items_monotone t1 t2 d :
  t1 <= t2 -> low_items t1 d `sublist_of` low_items t2 d.
Proof.
  intros Hle. unfold low_items.
  induction d as [|[k v] r IH]; simpl; [done|].
  destruct v; simpl; try done.
  destruct (Z.ltb_spec n t1), (Z.ltb_spec n t2); simpl; try lia.
  - by apply sublist_skip.
  - by apply sublist_cons.
  - done.
Qed.

(** X7: raising the threshold only adds names to the scan: on a dict
    of integers, the list for a threshold is found, in order, within the
    list for any higher threshold. *)
Theorem check_low_items_monotone (s : state) (d : Dict.t) (t1 t2 : Z) :
  stock_data s = PyDict d ->
  integral d ->
  t1 <= t2 ->
  exists names1 names2,
    check_low_items t1 s = Returned names1 s /\
    check_low_items t2 s = Returned names2 s /\
    names1 `sublist_of` names2.
Proof.
  intros Hs Hint Hle.
  exists (low_items t1 d), (low_items t2 d).
  unfold check_low_items. run. rewrite Hs. simpl.
  rewrite !low_loop_integral by done.
  repeat split. by apply low_items_monotone.
Qed.

End Composition.

(** ** The ledger when nothing is loaded *)

Section NoLoad.
Context `{Json}.
Import DictFacts DictOrder.




Lemma print_rows_integral d :
  integral d ->
  exists rows,
    print_rows d = (rows, None) /\
    Forall2 (fun p row =>
               exists q, snd p = PyInt q /\
                 row = ljust 20 (fst p) +:+ " -> " +:+ rjust 5 (pretty q))
      d rows.
Proof.
  induction 1 as [|[k v] r [q Hq] Hr (rows & Hrows & Hall)].
  - by exists [].
  - simpl in Hq. subst v. simpl. rewrite Hrows.
    eexists. split; [reflexivity|]. constructor; [|done]. by exists q.
Qed.


End NoLoad.

(** ** More on loading and saving *)

Section MorePersistence.
Context `{Json}.

(** X9: a load that succeeds replaces the mapping, it does not merge:
    when the file opens and parses, [stock_data] is the value parsed,
    whatever it is and whatever the mapping held, one message at info
    level is logged and the files are as they were. *)
Theorem load_data_replaces (s : state) (file text : string) (v : pyval) :
  open_read file s = Returned text s ->
  json_load text = Parsed v ->
  exists s',
    load_data file s = Returned tt s' /\
    stock_data s' = v /\
    log s' = log s ++ [(INFO, Loaded_from file)] /\
    files s' = files s.
Proof.
  intros Hopen Hparse. rewrite load_data_cases, Hopen, Hparse.
  by eexists.
Qed.

(** X10: [save_data] writes to the file it is given and to nothing
    else: whether it returns or raises, [stock_data] is as it was and so
    is every other file. *)
Theorem save_data_touches_one_file (s : state) (file other : string) :
  stock_data (final (save_data file s)) = stock_data s /\
  (other <> file ->
   files (final (save_data file s)) !! other = files s !! other).
Proof.
  split; [apply save_data_stock|]. intros Hother.
  unfold save_data, open_write, write_close. run.
  destruct (open_error file s) as [e|]; simpl.
  - by destruct e.
  - destruct (disk_full s && _); simpl;
      by rewrite ?lookup_insert_ne.
Qed.


End MorePersistence.

(** ** The report *)

Section Report.
Import Ascii_json_facts.

Lemma length_repeated n c : String.length (repeated n c) = n.
Proof. induction n as [|n IH]; [done|]. simpl. by rewrite IH. Qed.

Lemma length_ljust width text :
  (String.length text <= width)%nat ->
  String.length (ljust width text) = width.
Proof.
  intros Hle. unfold ljust. rewrite length_append, length_repeated. lia.
Qed.

Lemma length_rjust width text :
  (String.length text <= width)%nat ->
  String.length (rjust width text) = width.
Proof.
  intros Hle. unfold rjust. rewrite length_append, length_repeated. lia.
Qed.

Lemma prefix_append (a b : string) : String.prefix a (a +:+ b) = true.
Proof.
  induction a as [|x a IH]; [by destruct b|].
  rewrite append_cons. simpl. by destruct (ascii_dec x x).
Qed.

(** X12: the report lists every item once, in the order of the mapping,
    in aligned columns.  On a dict of integer quantities [print_data]
    returns, having printed the heading, then one row per entry in dict
    order (or the line "No items in inventory" for an empty dict), then
    the closing rule; the row of an entry starts with its name, and is 29
    characters wide when the name has at most 20 characters and the
    quantity at most 5. *)
Theorem print_data_report (s : state) (d : Dict.t) :
  stock_data s = PyDict d ->
  integral d ->
  exists body,
    print_data s = (report_head ++ body ++ [report_foot], Returned tt s) /\
    (d = [] -> body = ["No items in inventory"]) /\
    (d <> [] ->
     length body = length d /\
     forall i k q, d !! i = Some (k, PyInt q) ->
       exists row,
         body !! i = Some row /\
         String.prefix k row = true /\
         ((String.length k <= 20)%nat ->
          (String.length (pretty q) <= 5)%nat ->
          String.length row = 29%nat)).
Proof.
  intros Hs Hint. unfold print_data. rewrite Hs.
  destruct d as [|p r].
  { exists ["No items in inventory"]. by repeat split. }
  cbn [truthy negb py_items].
  destruct (print_rows_integral (p :: r) Hint) as (rows & -> & Hrows).
  exists rows. split; [done|]. split; [done|]. intros _. split.
  - symmetry. by eapply Forall2_length.
  - intros i k q Hi.
    destruct (Forall2_lookup_l _ _ _ _ _ Hrows Hi)
      as (row & Hrow & q' & Hq & ->).
    simpl in Hq. injection Hq as <-. simpl.
    exists (ljust 20 k +:+ " -> " +:+ rjust 5 (pretty q)).
    split; [done|]. split.
    + unfold ljust. rewrite append_assoc. apply prefix_append.
    + intros Hk Hq. rewrite !length_append, length_ljust, length_rjust by done.
      done.
Qed.

(** X13: the queries only read: [get_qty], [check_low_items] and
    [print_data] leave the state (the mapping, the log, the files) exactly
    as it was, whether they return or raise. *)
Theorem queries_leave_state (s : state) (item : string) (threshold : Z) :
  final (get_qty item s) = s /\
  final (check_low_items threshold s) = s /\
  final (snd (print_data s)) = s.
Proof.
  split; [apply get_qty_final|]. split; [apply check_low_items_final|].
  unfold print_data. destruct (negb _); [done|].
  destruct (py_items _); [done|]. by destruct (print_rows _) as [? []].
Qed.

End Report.

Section MoreLedger.
Import DictFacts DictOrder.

(** X14: an item taken out of stock vanishes from the low-stock list:
    once [remove_item(item, n)] has brought the quantity of [item] to 0 or
    below, [check_low_items] does not list it, whatever the threshold. *)
Theorem removed_item_is_not_low (s : state) (d : Dict.t) (item : string)
    (q n threshold : Z) :
  stock_data s = PyDict d ->
  Dict.wf d ->
  integral d ->
  Dict.get d item = Some (PyInt q) ->
  q - n <= 0 ->
  exists s' names,
    remove_item item n s = Returned tt s' /\
    check_low_items threshold s' = Returned names s' /\
    item ∉ names.
Proof.
  intros Hs Hwf Hint Hg Hle. rewrite (remove_item_dict s d Hs), Hg.
  cbn [as_int]. replace (q - n <=? 0) with true by lia.
  do 2 eexists. split; [reflexivity|].
  assert (integral (Dict.del d item)) as Hint' by (by apply Forall_del).
  split.
  - unfold check_low_items. run. by rewrite low_loop_integral.
  - intros (x & Hx & _)%elem_of_low_items; [|by apply wf_del].
    by rewrite get_del_same in Hx.
Qed.

(** X15: what [add_item] appends to the caller's list is what it logs:
    whenever it returns, either the list, the mapping and the files are
    as they were, or the list has one more entry, the text of the
    addition, and that same text has been logged at info level. *)
Theorem add_item_log_entry (s s' : state) (item qty : pyval)
    (logs : option (list message)) (now : string) (r : list message) :
  add_item item qty logs now s = Returned r s' ->
  let given := match logs with None => [] | Some l => l end in
  (r = given /\ stock_data s' = stock_data s /\ files s' = files s) \/
  (exists name,
     item = PyStr name /\
     r = given ++ [Added now qty name] /\
     log s' = log s ++ [(INFO, Added now qty name)]).
Proof.
  unfold add_item. destruct (truthy item).
  2:{ intros [= <- <-]. by left. }
  destruct item as [| | |name| |]; simpl;
    try (run; intros [= <- <-]; by left).
  destruct (isinstance_int qty); simpl.
  2:{ run. intros [= <- <-]. by left. }
  run. destruct (py_get (stock_data s) name (PyInt 0)); simpl; [done|].
  destruct (py_add _ qty); simpl; [done|].
  destruct (py_setitem (stock_data s) name _); simpl; [done|].
  intros [= <- <-]. right. by exists name.
Qed.



End MoreLedger.

(** ** The further properties on the sample states *)

Lemma add_item_then_remove_item_witness :
  exists r s1 s2,
    add_item (PyStr "apple") (PyInt 4) None "now" sample = Returned r s1 /\
    remove_item "apple" 4 s1 = Returned tt s2 /\
    stock_data s2 = stock_data sample.
Proof.
  apply (add_item_then_remove_item sample
           [("apple", PyInt 7); ("banana", PyInt 5)] "apple" 4 None "now").
  - reflexivity.
  - discriminate.
  - right. exists 7. split; [reflexivity|lia].
Defined.

Lemma remove_item_then_add_item_witness :
  exists s1 r s2,
    remove_item "apple" 9 sample = Returned tt s1 /\
    add_item (PyStr "apple") (PyInt 2) None "now" s1 = Returned r s2 /\
    stock_data s2 = PyDict [("banana", PyInt 5); ("apple", PyInt 2)].
Proof.
  apply (remove_item_then_add_item sample
           [("apple", PyInt 7); ("banana", PyInt 5)] "apple" 7 9 2 None
           "now").
  - reflexivity.
  - discriminate.
  - reflexivity.
  - lia.
Defined.

Lemma add_item_keeps_order_witness :
  exists r s' d',
    add_item (PyStr "cherry") (PyInt 3) None "now" sample = Returned r s' /\
    stock_data s' = PyDict d' /\
    Dict.keys d' = ["apple"; "banana"; "cherry"].
Proof.
  apply (add_item_keeps_order sample
           [("apple", PyInt 7); ("banana", PyInt 5)] "cherry" (PyInt 3) None
           "now").
  - reflexivity.
  - discriminate.
  - reflexivity.
  - intros v Hv. discriminate Hv.
Defined.

Lemma add_item_other_items_witness :
  exists d',
    stock_data (final (add_item (PyStr "apple") (PyInt 4) None "now" sample))
      = PyDict d' /\
    Dict.get d' "banana" = Some (PyInt 5).
Proof.
  apply (add_item_other_items sample
           [("apple", PyInt 7); ("banana", PyInt 5)] (PyStr "apple")
           (PyInt 4) None "now" "banana").
  - reflexivity.
  - discriminate.
Defined.

Lemma remove_item_other_items_witness :
  exists d',
    stock_data (final (remove_item "apple" 9 sample)) = PyDict d' /\
    Dict.get d' "banana" = Some (PyInt 5) /\
    Dict.keys d' `sublist_of` ["apple"; "banana"].
Proof.
  apply (remove_item_other_items sample
           [("apple", PyInt 7); ("banana", PyInt 5)] "apple" 9 "banana").
  - reflexivity.
  - discriminate.
Defined.

Lemma non_numeric_quantity_raises_witness :
  get_qty "apple" mixed = Returned (PyStr "seven") mixed /\
  (forall qty logs now, isinstance_int qty = true ->
     add_item (PyStr "apple") qty logs now mixed = Raised TypeError mixed) /\
  (forall qty, remove_item "apple" qty mixed = Raised TypeError mixed) /\
  (forall threshold,
     check_low_items threshold mixed = Raised TypeError mixed).
Proof.
  apply (non_numeric_quantity_raises mixed
           [("apple", PyStr "seven"); ("banana", PyInt 5)] "apple"
           (PyStr "seven")).
  - reflexivity.
  - discriminate.
  - reflexivity.
  - reflexivity.
Defined.

Lemma check_low_items_monotone_witness :
  exists names1 names2,
    check_low_items 5 sample = Returned names1 sample /\
    check_low_items 8 sample = Returned names2 sample /\
    names1 `sublist_of` names2.
Proof.
  apply (check_low_items_monotone sample
           [("apple", PyInt 7); ("banana", PyInt 5)] 5 8).
  - reflexivity.
  - repeat constructor; by eexists.
  - lia.
Defined.


Lemma load_data_replaces_witness :
  exists s',
    @load_data Ascii_json.json "inventory.json" stored = Returned tt s' /\
    stock_data s' = PyDict [("pear", PyInt 2)] /\
    log s' = log stored ++ [(INFO, Loaded_from "inventory.json")] /\
    files s' = files stored.
Proof.
  apply (@load_data_replaces Ascii_json.json stored "inventory.json"
           (Ascii_json.dump 0 (PyDict [("pear", PyInt 2)]))
           (PyDict [("pear", PyInt 2)])).
  - reflexivity.
  - vm_compute. reflexivity.
Defined.


Lemma print_data_report_witness :
  exists body,
    print_data sample =
      (report_head ++ body ++ [report_foot], Returned tt sample) /\
    ([("apple", PyInt 7); ("banana", PyInt 5)] = [] ->
     body = ["No items in inventory"]) /\
    ([("apple", PyInt 7); ("banana", PyInt 5)] <> [] ->
     length body = 2%nat /\
     forall i k q,
       [("apple", PyInt 7); ("banana", PyInt 5)] !! i = Some (k, PyInt q) ->
       exists row,
         body !! i = Some row /\
         String.prefix k row = true /\
         ((String.length k <= 20)%nat ->
          (String.length (pretty q) <= 5)%nat ->
          String.length row = 29%nat)).
Proof.
  apply (print_data_report sample [("apple", PyInt 7); ("banana", PyInt 5)]).
  - reflexivity.
  - repeat constructor; by eexists.
Defined.

Lemma removed_item_is_not_low_witness :
  exists s' names,
    remove_item "apple" 7 sample = Returned tt s' /\
    check_low_items 5 s' = Returned names s' /\
    "apple" ∉ names.
Proof.
  apply (removed_item_is_not_low sample
           [("apple", PyInt 7); ("banana", PyInt 5)] "apple" 7 7 5).
  - reflexivity.
  - unfold Dict.wf. simpl. apply (bool_decide_unpack _). vm_compute. exact I.
  - repeat constructor; by eexists.
  - reflexivity.
  - lia.
Defined.

Lemma add_item_log_entry_witness :
  ([Added "now" (PyInt 4) "apple"] = [] /\
   stock_data (final (add_item (PyStr "apple") (PyInt 4) None "now" sample))
     = stock_data sample /\
   files (final (add_item (PyStr "apple") (PyInt 4) None "now" sample))
     = files sample) \/
  (exists name,
     PyStr "apple" = PyStr name /\
     [Added "now" (PyInt 4) "apple"] = [] ++ [Added "now" (PyInt 4) name] /\
     log (final (add_item (PyStr "apple") (PyInt 4) None "now" sample)) =
       log sample ++ [(INFO, Added "now" (PyInt 4) name)]).
Proof.
  apply (add_item_log_entry sample
           (final (add_item (PyStr "apple") (PyInt 4) None "now" sample))
           (PyStr "apple") (PyInt 4) None "now"
           [Added "now" (PyInt 4) "apple"]).
  reflexivity.
Defined.


Lemma load_data_missing_witness :
  @load_data Ascii_json.json "inventory.json" sample =
    Returned tt
      (set_stock (PyDict [])
         (add_log WARNING (File_not_found "inventory.json") sample)).
Proof.
  apply (@load_data_missing Ascii_json.json "inventory.json" sample);
    reflexivity.
Defined.


Lemma nul_path_raises_witness :
  @load_data Ascii_json.json nul_path sample = Raised ValueError sample /\
  @save_data Ascii_json.json nul_path sample = Raised ValueError sample.
Proof.
  apply (@nul_path_raises Ascii_json.json nul_path sample). reflexivity.
Defined.

(** ** What the calls leave alone *)

Section Frames.
Context `{Json}.

Lemma add_item_frame item qty logs now s :
  files (final (add_item item qty logs now s)) = files s /\
  disk_full (final (add_item item qty logs now s)) = disk_full s /\
  log s `prefix_of` log (final (add_item item qty logs now s)).
Proof.
  unfold add_item. run.
  repeat (case_match; simplify_eq/=; try done);
    repeat split; try done; by apply prefix_app_r.
Qed.

Lemma remove_item_frame item qty s :
  files (final (remove_item item qty s)) = files s /\
  disk_full (final (remove_item item qty s)) = disk_full s /\
  log s `prefix_of` log (final (remove_item item qty s)).
Proof.
  unfold remove_item. run.
  repeat (case_match; simplify_eq/=; try done);
    repeat split; try done; by apply prefix_app_r.
Qed.

Lemma load_data_log file s : log s `prefix_of` log (final (load_data file s)).
Proof.
  rewrite load_data_cases.
  repeat (case_match; simplify_eq/=; try done); by apply prefix_app_r.
Qed.

Lemma save_data_log file s : log s `prefix_of` log (final (save_data file s)).
Proof.
  unfold save_data, open_write, write_close. run.
  repeat (case_match; simplify_eq/=; try done); by apply prefix_app_r.
Qed.

(** X20: the calls on the ledger proper never touch the file system:
    after [add_item], [remove_item], [get_qty] or [check_low_items],
    whatever the arguments and the outcome, the files are as they were. *)
Theorem ledger_calls_leave_files (c : call) (s : state) :
  ledger_call c ->
  files (after c s) = files s /\ disk_full (after c s) = disk_full s.
Proof.
  destruct c; simpl; try done; intros _.
  - destruct (add_item_frame item qty logs now s) as (? & ? & _). done.
  - destruct (remove_item_frame item qty s) as (? & ? & _). done.
  - by rewrite get_qty_final.
  - by rewrite check_low_items_final.
Qed.

(** X21: the log is only ever added to: after any call, whatever its
    arguments and its outcome, what had been logged is still there, in the
    same order, at the head of the log. *)
Theorem log_only_grows (c : call) (s : state) :
  log s `prefix_of` log (after c s).
Proof.
  destruct c; simpl.
  - apply add_item_frame.
  - apply remove_item_frame.
  - by rewrite get_qty_final.
  - by rewrite check_low_items_final.
  - apply load_data_log.
  - apply save_data_log.
Qed.

Lemma after_all_files cs : forall s,
  Forall ledger_call cs ->
  files (after_all cs s) = files s.
Proof.
  unfold after_all.
  induction cs as [|c cs IH]; intros s Hcs; simpl; [done|].
  apply Forall_cons in Hcs as [Hc Hcs]. rewrite IH by done.
  destruct c; simpl in *; try done.
  - apply add_item_frame.
  - apply remove_item_frame.
  - by rewrite get_qty_final.
  - by rewrite check_low_items_final.
Qed.

(** X22: a load brings back what was saved, whatever was done to the
    ledger in between.  When [save_data(file)] meets no obstacle and
    [json.load] reads back what [json.dump] wrote, then after any calls of
    [add_item], [remove_item], [get_qty] and [check_low_items],
    [load_data(file)] returns with [stock_data] as it was at the save. *)
Theorem load_data_restores_saved (s : state) (file : string)
    (cs : list call) :
  open_error file s = None ->
  disk_full s = false ->
  json_load (json_dump (stock_data s)) = Parsed (stock_data s) ->
  Forall ledger_call cs ->
  exists s1 s2,
    save_data file s = Returned tt s1 /\
    load_data file (after_all cs s1) = Returned tt s2 /\
    stock_data s2 = stock_data s.
Proof.
  intros Hopen Hroom Hjson Hcs.
  destruct (open_error_None_inv _ _ Hopen) as [Hnul Hname].
  eexists _, _. split; [by apply save_data_succeeds|].
  rewrite load_data_cases. unfold open_read, open_error.
  rewrite after_all_files by done. simpl.
  rewrite Hnul, Hname, lookup_insert_eq, Hjson. by split.
Qed.

End Frames.

Lemma ledger_calls_leave_files_witness :
  files (@after Ascii_json.json (Remove_item "apple" 9) stored)
    = files stored /\
  disk_full (@after Ascii_json.json (Remove_item "apple" 9) stored)
    = disk_full stored.
Proof.
  apply (@ledger_calls_leave_files Ascii_json.json (Remove_item "apple" 9)
           stored).
  exact I.
Defined.

Lemma load_data_restores_saved_witness :
  let cs := [Remove_item "apple" 9;
             Add_item (PyStr "cherry") (PyInt 3) None "now";
             Check_low_items 5] in
  exists s1 s2,
    @save_data Ascii_json.json "inventory.json" sample = Returned tt s1 /\
    @load_data Ascii_json.json "inventory.json"
      (@after_all Ascii_json.json cs s1) = Returned tt s2 /\
    stock_data s2 = stock_data sample.
Proof.
  apply (@load_data_restores_saved Ascii_json.json sample "inventory.json"
           [Remove_item "apple" 9;
            Add_item (PyStr "cherry") (PyInt 3) None "now";
            Check_low_items 5]).
  - reflexivity.
  - reflexivity.
  - vm_compute. reflexivity.
  - repeat constructor.
Defined.
